(** * Backup tools: folder scanner, directory comparator and greedy disk fitter

    A shallow embedding of the computational core of the Streamlit pages
    [pages/1_Folder_Analyzer.py] and [adv_backup/pages/2_Folder_Checker.py],
    with the properties their specification states about them.

    Conventions of the embedding.
    - Python integers are unbounded.  Byte counts and file counts are sums of
      [st_size] values and of ones, so they live in [N]; differences are
      taken in [Z].
    - Python floats (the disk capacity and everything derived from it) are
      read as exact rationals [Q]: the arithmetic of the fitter is the
      arithmetic of the formulas, without binary64 rounding.
    - What [os.scandir] yields for a directory is a list of entries, in the
      order of iteration; an entry that is a directory carries its own
      listing, so a folder is a finite tree.
    - The Streamlit placeholder [status_text] is an object that is mutated in
      place; it is threaded through the calls as the sequence of texts it was
      asked to show ([None] when the caller passed no placeholder).
    - An exception of the source is a [Raise] result. *)

From Stdlib Require Import List String Ascii Bool NArith ZArith QArith Lia Lqa.
From Stdlib Require Import Permutation Sorted DecimalString.
Import ListNotations.

#[local] Set Warnings "-register-all".
#[local] Open Scope string_scope.

(** ** Python values and helpers *)

Module Py.

(** [str(n)] for an integer: decimal digits, a minus sign when negative. *)
Definition str (n : Z) : string := NilZero.string_of_int (Z.to_int n).

(** The line feed that ends the comparator's messages. *)
Definition nl : string := String "010"%char EmptyString.

(** [s.endswith("/")] *)
Fixpoint ends_with_sep (s : string) : bool :=
  match s with
  | EmptyString => false
  | String c EmptyString => Ascii.eqb c "/"%char
  | String _ rest => ends_with_sep rest
  end.

(** [os.path.join(folder_path, name)] on a POSIX host, for an entry name
    (never absolute): this is [entry.path] of a [scandir] entry. *)
Definition path_join (folder_path name : string) : string :=
  match folder_path with
  | EmptyString => name
  | _ => if ends_with_sep folder_path then folder_path ++ name
         else folder_path ++ "/" ++ name
  end.

(** Exceptions that reach the caller. *)
Inductive exn : Type :=
| OSError (path : string)   (* [os.scandir] on a missing or unreadable path *)
| ValueError.               (* [list.index] on an absent element *)

Inductive result (A : Type) : Type :=
| Ok (a : A)
| Raise (e : exn).
Arguments Ok {A} a.
Arguments Raise {A} e.

Definition bind {A B : Type} (m : result A) (k : A -> result B) : result B :=
  match m with
  | Ok a => k a
  | Raise e => Raise e
  end.

(** [l.index(x)]: the position of the first element equal to [x]. *)
Fixpoint index {A : Type} (eqb : A -> A -> bool) (l : list A) (x : A)
  : result nat :=
  match l with
  | [] => Raise ValueError
  | y :: l' => if eqb y x then Ok 0%nat
               else bind (index eqb l' x) (fun i => Ok (S i))
  end.

(** Equality of two-element tuples of strings. *)
Definition pair_eqb (p q : string * string) : bool :=
  String.eqb (fst p) (fst q) && String.eqb (snd p) (snd q).

End Py.

Notation "x <- m ;; k" := (Py.bind m (fun x => k))
  (at level 61, m at next level, right associativity).
Notation "' pat <- m ;; k" := (Py.bind m (fun x => match x with pat => k end))
  (at level 61, pat pattern, m at next level, right associativity).

(** ** The file system seen through [os.scandir] *)

Module FS.

(** One entry of a directory listing.  [is_file()] and [is_dir()] follow
    symbolic links, so a link counts as what it points to; everything else
    (dangling link, socket, fifo, device) is [Special]. *)
Inductive DirEntry : Type :=
| RegularFile (name : string) (st_size : N)
| Directory (name : string) (listing : list DirEntry)
| Special (name : string).

Definition name (entry : DirEntry) : string :=
  match entry with
  | RegularFile n _ | Directory n _ | Special n => n
  end.

(** Induction over a folder tree: the listing of a directory satisfies
    the property entry by entry. *)
Section Tree_induction.
Variable P : DirEntry -> Prop.
Hypothesis P_file : forall n st_size, P (RegularFile n st_size).
Hypothesis P_dir : forall n listing, Forall P listing -> P (Directory n listing).
Hypothesis P_special : forall n, P (Special n).

Fixpoint DirEntry_tree_ind (entry : DirEntry) : P entry :=
  match entry with
  | RegularFile n st_size => P_file n st_size
  | Directory n listing =>
      P_dir n listing
        ((fix all (l : list DirEntry) : Forall P l :=
            match l with
            | [] => Forall_nil P
            | e :: l' => Forall_cons e (DirEntry_tree_ind e) (all l')
            end) listing)
  | Special n => P_special n
  end.
End Tree_induction.

(** The byte lengths of all regular files below an entry, in the order of
    a depth-first walk. *)
Fixpoint lengths (entry : DirEntry) : list N :=
  match entry with
  | RegularFile _ st_size => [st_size]
  | Directory _ listing => flat_map lengths listing
  | Special _ => []
  end.

(** The regular files of a folder tree, its number of files and the sum
    of their byte lengths. *)
Definition regular_files (listing : list DirEntry) : list N :=
  flat_map lengths listing.

Definition sum_lengths (l : list N) : N := fold_right N.add 0%N l.
Definition count (l : list N) : N := N.of_nat (List.length l).

Definition number_of_files (listing : list DirEntry) : N :=
  count (regular_files listing).

Definition total_length (listing : list DirEntry) : N :=
  sum_lengths (regular_files listing).

(** The mounted file system: the listing found at each root path, when
    there is a readable directory there. *)
Definition filesystem : Type := string -> option (list DirEntry).

Definition scandir (fs : filesystem) (path : string) : Py.result (list DirEntry) :=
  match fs path with
  | Some listing => Py.Ok listing
  | None => Py.Raise (Py.OSError path)
  end.

End FS.

(** ** The progress placeholder *)

Module Status.

(** The texts the placeholder was asked to show, oldest first. *)
Definition sink : Type := list string.

(** [status_text.text(msg)] when a placeholder was passed, nothing
    otherwise. *)
Definition text (status_text : option sink) (msg : string) : option sink :=
  match status_text with
  | Some shown => Some (shown ++ [msg])%list
  | None => None
  end.

End Status.

(** ** pages/1_Folder_Analyzer.py *)

Module Folder_Analyzer.

Import FS.

(** The body of the loop [for entry in os.scandir(folder_path)], on the
    loop state [(total_size, file_count)] and the placeholder.  The
    recursive call of [get_folder_info] on [entry.path] is the same loop,
    started from zero, over the listing of the sub-directory. *)
Fixpoint scan_entry (folder_path : string) (entry : DirEntry)
    (state : N * N * option Status.sink) {struct entry}
  : N * N * option Status.sink :=
  let '(total_size, file_count, status_text) := state in
  let '(total_size, file_count, status_text) :=
    match entry with
    | RegularFile _ st_size =>
        ((total_size + st_size)%N, (file_count + 1)%N, status_text)
    | Directory entry_name listing =>
        let '(subdir_size, subdir_file_count, status_text) :=
          fold_left
            (fun state e => scan_entry (Py.path_join folder_path entry_name) e state)
            listing (0%N, 0%N, status_text) in
        ((total_size + subdir_size)%N, (file_count + subdir_file_count)%N,
         status_text)
    | Special _ => (total_size, file_count, status_text)
    end in
  (total_size, file_count,
   Status.text status_text
     ("Scanning " ++ name entry ++ ", in " ++ folder_path)).

(** [get_folder_info(folder_path, status_text)], where [listing] is what
    [os.scandir(folder_path)] yields.  Returns the tuple of the source and
    the placeholder as the calls left it. *)
Definition get_folder_info (folder_path : string) (listing : list DirEntry)
    (status_text : option Status.sink)
  : (N * N) * option Status.sink :=
  let '(total_size, file_count, status_text) :=
    fold_left (fun state e => scan_entry folder_path e state)
      listing (0%N, 0%N, status_text) in
  ((total_size, file_count), status_text).

(** An element of [folder_infos]: [(folder, size, file_count)]. *)
Definition folder_info : Type := string * N * N.

(** A byte count as a number that compares with the capacity. *)
Definition bytes (n : N) : Q := inject_Z (Z.of_N n).

Definition size_of (item : string * N) : Q := bytes (snd item).

(** The order of the sorted list: no item is smaller than the next. *)
Definition not_smaller (a b : string * N) : Prop := (snd b <= snd a)%N.

(** [list.sort(key=lambda x: x[1], reverse=True)]: descending by size and
    stable, so items of equal size keep their input order.  Insertion from
    the right: an item goes in front of the first item that is not
    larger. *)
Fixpoint insert_by_size (x : string * N) (sorted : list (string * N))
  : list (string * N) :=
  match sorted with
  | [] => [x]
  | y :: rest => if (snd x <? snd y)%N then y :: insert_by_size x rest
                 else x :: y :: rest
  end.

Definition sort_by_size_desc (l : list (string * N)) : list (string * N) :=
  fold_right insert_by_size [] l.

(** One iteration of [for folder, size in folder_sizes], on the loop state
    [(result_folders, remaining_space)]. *)
Definition fit_step (state : list (string * N) * Q) (item : string * N)
  : list (string * N) * Q :=
  let '(result_folders, remaining_space) := state in
  if Qle_bool (size_of item) remaining_space
  then ((result_folders ++ [item])%list, remaining_space - size_of item)
  else (result_folders, remaining_space).

Definition hard_disk_size_bytes (hard_disk_size_tb : Q) : Q :=
  hard_disk_size_tb * inject_Z (1024 ^ 4).

Definition safety_margin (hard_disk_size_tb safety_margin_percent : Q) : Q :=
  hard_disk_size_bytes hard_disk_size_tb * (safety_margin_percent / 100).

Definition adjusted_hard_disk_size_bytes
    (hard_disk_size_tb safety_margin_percent : Q) : Q :=
  hard_disk_size_bytes hard_disk_size_tb
  - safety_margin hard_disk_size_tb safety_margin_percent.

(** [efficient_fitting_greedy(folder_infos, hard_disk_size_tb,
    safety_margin_percent)] returns [(result_folders, remaining_space)].
    There is no check of the arguments: every capacity and margin is
    computed with. *)
Definition efficient_fitting_greedy (folder_infos : list folder_info)
    (hard_disk_size_tb safety_margin_percent : Q)
  : list (string * N) * Q :=
  let folder_sizes :=
    map (fun info : folder_info => let '(folder, size, _) := info in (folder, size))
        folder_infos in
  let folder_sizes := sort_by_size_desc folder_sizes in
  fold_left fit_step folder_sizes
    ([], adjusted_hard_disk_size_bytes hard_disk_size_tb safety_margin_percent).

(** The total size of a selection, in bytes. *)
Definition selected_bytes (result_folders : list (string * N)) : N :=
  fold_right (fun item total => (snd item + total)%N) 0%N result_folders.

End Folder_Analyzer.

(** ** adv_backup/pages/2_Folder_Checker.py *)

Module Folder_Checker.

Import FS.

(** The body of the loop of this page's [get_folder_info], on the loop
    state [(total_size, file_count, total_size_scanned)] and the
    placeholder.  Only a regular file reports progress. *)
Fixpoint scan_entry (folder_path : string) (entry : DirEntry)
    (state : N * N * N * option Status.sink) {struct entry}
  : N * N * N * option Status.sink :=
  let '(total_size, file_count, total_size_scanned, status_text) := state in
  match entry with
  | RegularFile _ entry_size =>
      ((total_size + entry_size)%N, (file_count + 1)%N,
       (total_size_scanned + entry_size)%N,
       Status.text status_text ("Scanning " ++ folder_path))
  | Directory entry_name listing =>
      let '(subdir_size, subdir_file_count, total_size_scanned, status_text) :=
        fold_left
          (fun state e => scan_entry (Py.path_join folder_path entry_name) e state)
          listing (0%N, 0%N, total_size_scanned, status_text) in
      ((total_size + subdir_size)%N, (file_count + subdir_file_count)%N,
       total_size_scanned, status_text)
  | Special _ => state
  end.

(** [get_folder_info(folder_path, status_text, total_size_scanned)] on the
    listing of [folder_path]: the three-element tuple of the source and
    the placeholder as the calls left it. *)
Definition get_folder_info (folder_path : string) (listing : list DirEntry)
    (status_text : option Status.sink) (total_size_scanned : N)
  : (N * N * N) * option Status.sink :=
  let '(total_size, file_count, total_size_scanned, status_text) :=
    fold_left (fun state e => scan_entry folder_path e state)
      listing (0%N, 0%N, total_size_scanned, status_text) in
  ((total_size, file_count, total_size_scanned), status_text).

(** What one iteration of the loop of [start_comparison] computes. *)
Record comparison : Type := Comparison {
  size_delta : Z;
  file_count_delta : Z;
  result : string;
  identical : bool
}.

(** The pair number shown in a message:
    [directory_pairs.index((dir_a, dir_b)) + 1]. *)
Definition pair_number (directory_pairs : list (string * string))
    (dir_a dir_b : string) : Py.result Z :=
  i <- Py.index Py.pair_eqb directory_pairs (dir_a, dir_b) ;;
  Py.Ok (Z.of_nat i + 1)%Z.

Definition identical_message (dir_a dir_b : string) (number : Z)
    (size_a num_files_a : N) : string :=
  "Directory pair " ++ dir_a ++ " and " ++ dir_b
    ++ " (pair " ++ Py.str number ++ ") are identical. The directory size is "
    ++ Py.str (Z.of_N size_a) ++ " bytes, and it contains "
    ++ Py.str (Z.of_N num_files_a) ++ " files." ++ Py.nl.

Definition different_message (dir_a dir_b : string) (number : Z)
    (size_delta file_count_delta : Z) : string :=
  "Directory pair " ++ dir_a ++ " and " ++ dir_b
    ++ " (pair " ++ Py.str number
    ++ ") are different. The size delta between directories is "
    ++ Py.str size_delta ++ " bytes, and the file number delta is "
    ++ Py.str file_count_delta ++ " files." ++ Py.nl.

(** The loop body after the two scans: deltas, message and verdict. *)
Definition compare (directory_pairs : list (string * string))
    (size_threshold file_count_threshold : Z) (dir_a dir_b : string)
    (size_a num_files_a size_b num_files_b : N) : Py.result comparison :=
  let size_delta := Z.abs (Z.of_N size_a - Z.of_N size_b) in
  let file_count_delta := Z.abs (Z.of_N num_files_a - Z.of_N num_files_b) in
  result <-
    (if (size_delta <=? size_threshold)%Z && (file_count_delta <=? file_count_threshold)%Z
     then number <- pair_number directory_pairs dir_a dir_b ;;
          Py.Ok (identical_message dir_a dir_b number size_a num_files_a)
     else number <- pair_number directory_pairs dir_a dir_b ;;
          Py.Ok (different_message dir_a dir_b number size_delta file_count_delta)) ;;
  let identical :=
    (size_delta <=? size_threshold)%Z && (file_count_delta <=? file_count_threshold)%Z in
  Py.Ok (Comparison size_delta file_count_delta result identical).

(** One iteration of [for dir_a, dir_b in directory_pairs]: both scans,
    then the comparison; the placeholder goes through both scans. *)
Definition compare_pair (fs : filesystem)
    (directory_pairs : list (string * string))
    (size_threshold file_count_threshold : Z)
    (status_text : option Status.sink) (dirs : string * string)
  : Py.result (comparison * option Status.sink) :=
  let '(dir_a, dir_b) := dirs in
  listing_a <- scandir fs dir_a ;;
  let '((size_a, num_files_a, _), status_text) :=
    get_folder_info dir_a listing_a status_text 0%N in
  listing_b <- scandir fs dir_b ;;
  let '((size_b, num_files_b, _), status_text) :=
    get_folder_info dir_b listing_b status_text 0%N in
  c <- compare directory_pairs size_threshold file_count_threshold
         dir_a dir_b size_a num_files_a size_b num_files_b ;;
  Py.Ok (c, status_text).

(** The loop of [start_comparison] over the pairs still to do, with the
    [results] list built so far. *)
Fixpoint comparison_loop (fs : filesystem)
    (directory_pairs : list (string * string))
    (size_threshold file_count_threshold : Z)
    (todo : list (string * string))
    (results : list (string * bool)) (status_text : option Status.sink)
  : Py.result (list (string * bool) * option Status.sink) :=
  match todo with
  | [] => Py.Ok (results, status_text)
  | dirs :: todo' =>
      '(c, status_text) <-
         compare_pair fs directory_pairs size_threshold file_count_threshold
           status_text dirs ;;
      comparison_loop fs directory_pairs size_threshold file_count_threshold
        todo' (results ++ [(result c, identical c)])%list status_text
  end.

(** [start_comparison(directory_pairs, size_threshold,
    file_count_threshold, status_text)] on the file system [fs]. *)
Definition start_comparison (fs : filesystem)
    (directory_pairs : list (string * string))
    (size_threshold file_count_threshold : Z)
    (status_text : option Status.sink)
  : Py.result (list (string * bool) * option Status.sink) :=
  comparison_loop fs directory_pairs size_threshold file_count_threshold
    directory_pairs [] status_text.

(** A pair with its two sides exchanged. *)
Definition swap (dirs : string * string) : string * string :=
  (snd dirs, fst dirs).

End Folder_Checker.

(** ** What the scripts of the two pages do around the functions *)

Module Walk.

Import FS.

(** The number of entries a walk of the tree visits: every entry of every
    listing, directories included. *)
Fixpoint visited (entry : DirEntry) : nat :=
  match entry with
  | Directory _ listing => S (list_sum (map visited listing))
  | _ => 1%nat
  end.

Definition entries (listing : list DirEntry) : nat :=
  list_sum (map visited listing).

End Walk.

Module Page.

(** [placeholder.empty()]: the placeholder shows nothing any more. *)
Definition empty (status_text : option Status.sink) : option Status.sink :=
  match status_text with
  | Some _ => Some []
  | None => None
  end.

(** The value [index / total] handed to [progress_bar.progress]. *)
Definition fraction (index total : nat) : Q :=
  inject_Z (Z.of_nat index) / inject_Z (Z.of_nat total).

(** What a click leaves on the page: an error banner, or the outcome of the
    work. *)
Inductive shown (A : Type) : Type :=
| Error_banner (message : string)
| Outcome (a : A).
Arguments Error_banner {A} message.
Arguments Outcome {A} a.

End Page.

(** The script of pages/1_Folder_Analyzer.py below its two functions. *)
Module Analyzer_Page.

Import FS.

(** What the scan loop has built: [folder_infos], the placeholder and the
    values the progress bar was given. *)
Record scan_state : Type := Scan_state {
  folder_infos : list Folder_Analyzer.folder_info;
  status_text : option Status.sink;
  progress_bar : list Q
}.

(** [for i, folder in enumerate(st.session_state.folders)], from position
    [i] on; [get_folder_info(folder, status_text)] lists [folder] first. *)
Fixpoint scan_loop (fs : filesystem) (num_folders : nat) (todo : list string)
    (i : nat) (state : scan_state) : Py.result scan_state :=
  match todo with
  | [] => Py.Ok state
  | folder :: todo' =>
      let progress_bar :=
        (progress_bar state ++ [Page.fraction (i + 1) num_folders])%list in
      listing <- scandir fs folder ;;
      let '((size, file_count), status_text) :=
        Folder_Analyzer.get_folder_info folder listing (status_text state) in
      scan_loop fs num_folders todo' (S i)
        (Scan_state (folder_infos state ++ [(folder, size, file_count)])%list
           status_text progress_bar)
  end.

(** The branch of [if st.button("Scan Storage")]: an error banner without
    folders, else the scan of every folder with a fresh placeholder, which
    is emptied at the end. *)
Definition scan_storage (fs : filesystem) (folders : list string)
  : Py.result (Page.shown scan_state) :=
  match folders with
  | [] => Py.Ok (Page.Error_banner "Please add at least one folder.")
  | _ =>
      state <- scan_loop fs (List.length folders) folders 0
                 (Scan_state [] (Some []) []) ;;
      Py.Ok (Page.Outcome
               (Scan_state (folder_infos state) (Page.empty (status_text state))
                  (progress_bar state)))
  end.


End Analyzer_Page.

(** The script of adv_backup/pages/2_Folder_Checker.py below its two
    functions. *)
Module Checker_Page.

Import FS.

(** An exception of the page's loop: one raised inside [start_comparison],
    or the [IndexError] of [...[0]] on an empty list. *)
Inductive exn : Type :=
| Raised (e : Py.exn)
| IndexError.

Inductive result (A : Type) : Type :=
| Ok (a : A)
| Raise (e : exn).
Arguments Ok {A} a.
Arguments Raise {A} e.

(** [start_comparison([pair], ...)[0]] *)
Definition first_result (fs : filesystem) (dirs : string * string)
    (size_threshold file_count_threshold : Z) (status_text : option Status.sink)
  : result ((string * bool) * option Status.sink) :=
  match Folder_Checker.start_comparison fs [dirs] size_threshold
          file_count_threshold status_text with
  | Py.Ok (r :: _, status_text) => Ok (r, status_text)
  | Py.Ok ([], _) => Raise IndexError
  | Py.Raise e => Raise (Raised e)
  end.

Record compare_state : Type := Compare_state {
  results : list (string * bool);
  status_text : option Status.sink;
  progress_bar : list Q
}.

(** [for index, pair in enumerate(st.session_state.directory_pairs,
    start=1)], from [index] on. *)
Fixpoint compare_loop (fs : filesystem) (num_pairs : nat)
    (size_threshold file_count_threshold : Z)
    (todo : list (string * string)) (index : nat) (state : compare_state)
  : result compare_state :=
  match todo with
  | [] => Ok state
  | dirs :: todo' =>
      let progress_bar :=
        (progress_bar state ++ [Page.fraction index num_pairs])%list in
      match first_result fs dirs size_threshold file_count_threshold
              (status_text state) with
      | Raise e => Raise e
      | Ok (r, status_text) =>
          compare_loop fs num_pairs size_threshold file_count_threshold todo'
            (S index)
            (Compare_state (results state ++ [r])%list (Page.empty status_text)
               progress_bar)
      end
  end.

(** The branch of [if st.button("Start comparison")]. *)
Definition start_comparison_clicked (fs : filesystem)
    (directory_pairs : list (string * string))
    (size_threshold file_count_threshold : Z)
  : result (Page.shown compare_state) :=
  match directory_pairs with
  | [] => Ok (Page.Error_banner "Please add at least one pair of directories.")
  | _ =>
      match compare_loop fs (List.length directory_pairs) size_threshold
              file_count_threshold directory_pairs 1
              (Compare_state [] (Some []) []) with
      | Ok state => Ok (Page.Outcome state)
      | Raise e => Raise e
      end
  end.

End Checker_Page.

(** ** A small file system to run the pages on *)

Module Demo.

Import FS.

(** A: three files, 1500 bytes, one of them two levels down.  B: the same
    three lengths side by side.  C: two files, 900 bytes. *)
Definition folder_a : list DirEntry :=
  [RegularFile "a.mov" 1000;
   Directory "renders" [Special "lock"; Directory "v1" [RegularFile "b.exr" 300]];
   RegularFile "c.txt" 200]%N.

Definition folder_b : list DirEntry :=
  [RegularFile "c.txt" 200; RegularFile "b.exr" 300; RegularFile "a.mov" 1000]%N.

Definition folder_c : list DirEntry :=
  [RegularFile "a.mov" 600; Directory "empty" []; RegularFile "c.txt" 300]%N.

Definition fs : filesystem :=
  fun path =>
    if String.eqb path "/mnt/A" then Some folder_a
    else if String.eqb path "/mnt/B" then Some folder_b
    else if String.eqb path "/mnt/C" then Some folder_c
    else None.

(** The pair A, B is entered twice. *)
Definition directory_pairs : list (string * string) :=
  [("/mnt/A", "/mnt/B"); ("/mnt/A", "/mnt/C"); ("/mnt/A", "/mnt/B")].

(** What [start_comparison] returns for these pairs with the thresholds
    2000 and 0. *)
Definition run : list (string * bool) * option Status.sink :=
  Eval vm_compute in
    match Folder_Checker.start_comparison fs directory_pairs 2000 0 None with
    | Py.Ok r => r
    | Py.Raise _ => ([], None)
    end.

Definition folder_infos : list Folder_Analyzer.folder_info :=
  [("x", 500 * 1024 ^ 3, 7); ("y", 300 * 1024 ^ 3, 2); ("z", 400 * 1024 ^ 3, 1)]%N.

End Demo.

(** * Properties *)

(** ** The folder scanner *)

Section Scanner.

Import FS.

Lemma sum_lengths_app (l1 l2 : list N) :
  sum_lengths (l1 ++ l2) = (sum_lengths l1 + sum_lengths l2)%N.
Proof.
  induction l1 as [|x l1 IH]; simpl; [reflexivity|].
  rewrite IH. lia.
Qed.

Lemma count_app (l1 l2 : list N) :
  count (l1 ++ l2) = (count l1 + count l2)%N.
Proof. unfold count. rewrite length_app. lia. Qed.

Lemma sum_lengths_perm (l1 l2 : list N) :
  Permutation l1 l2 -> sum_lengths l1 = sum_lengths l2.
Proof. induction 1; simpl; lia. Qed.

Lemma count_perm (l1 l2 : list N) :
  Permutation l1 l2 -> count l1 = count l2.
Proof. intros H. unfold count. now rewrite (Permutation_length H). Qed.

(** *** The analyzer's scanner *)

Lemma analyzer_scan_entry_dir folder_path n listing total_size file_count status_text :
  Folder_Analyzer.scan_entry folder_path (Directory n listing)
    (total_size, file_count, status_text)
  = let '(subdir_size, subdir_file_count, status_text') :=
      fold_left
        (fun state e => Folder_Analyzer.scan_entry (Py.path_join folder_path n) e state)
        listing (0%N, 0%N, status_text) in
    ((total_size + subdir_size)%N, (file_count + subdir_file_count)%N,
     Status.text status_text' ("Scanning " ++ n ++ ", in " ++ folder_path)).
Proof.
  simpl. destruct (fold_left _ listing _) as [[? ?] ?]. reflexivity.
Qed.

(** The loop adds up what its entries add. *)
Lemma analyzer_loop_adds (listing : list DirEntry) :
  Forall (fun entry => forall folder_path total_size file_count status_text,
            fst (Folder_Analyzer.scan_entry folder_path entry
                   (total_size, file_count, status_text))
            = ((total_size + sum_lengths (lengths entry))%N,
               (file_count + count (lengths entry))%N)) listing ->
  forall folder_path total_size file_count status_text,
    fst (fold_left (fun state e => Folder_Analyzer.scan_entry folder_path e state)
           listing (total_size, file_count, status_text))
    = ((total_size + sum_lengths (flat_map lengths listing))%N,
       (file_count + count (flat_map lengths listing))%N).
Proof.
  induction 1 as [|e l He _ IH]; intros folder_path total_size file_count status_text.
  - simpl. f_equal; unfold count; simpl; lia.
  - cbn [fold_left flat_map].
    specialize (He folder_path total_size file_count status_text).
    destruct (Folder_Analyzer.scan_entry folder_path e _) as [[t c] st'].
    simpl in He. injection He as -> ->.
    rewrite IH, sum_lengths_app, count_app. f_equal; lia.
Qed.

(** One entry adds the lengths and the number of the files below it. *)
Lemma analyzer_entry_adds (entry : DirEntry) :
  forall folder_path total_size file_count status_text,
    fst (Folder_Analyzer.scan_entry folder_path entry
           (total_size, file_count, status_text))
    = ((total_size + sum_lengths (lengths entry))%N,
       (file_count + count (lengths entry))%N).
Proof.
  induction entry as [n st_size | n listing IH | n] using DirEntry_tree_ind;
    intros folder_path total_size file_count status_text.
  - simpl. f_equal; unfold count; simpl; lia.
  - rewrite analyzer_scan_entry_dir.
    pose proof (analyzer_loop_adds listing IH (Py.path_join folder_path n)
                  0%N 0%N status_text) as H.
    destruct (fold_left _ listing _) as [[t c] st'].
    simpl in H. injection H as -> ->. reflexivity.
  - simpl. f_equal; unfold count; simpl; lia.
Qed.

Lemma analyzer_totals folder_path listing status_text :
  fst (Folder_Analyzer.get_folder_info folder_path listing status_text)
  = (total_length listing, number_of_files listing).
Proof.
  unfold Folder_Analyzer.get_folder_info.
  pose proof (analyzer_loop_adds listing) as H.
  specialize (H (proj2 (Forall_forall _ _) (fun e _ => analyzer_entry_adds e))
                folder_path 0%N 0%N status_text).
  destruct (fold_left _ listing _) as [[t c] st'].
  simpl in H. injection H as -> ->. reflexivity.
Qed.

(** *** The checker's scanner *)

Lemma checker_scan_entry_dir folder_path n listing total_size file_count
    total_size_scanned status_text :
  Folder_Checker.scan_entry folder_path (Directory n listing)
    (total_size, file_count, total_size_scanned, status_text)
  = let '(subdir_size, subdir_file_count, total_size_scanned', status_text') :=
      fold_left
        (fun state e => Folder_Checker.scan_entry (Py.path_join folder_path n) e state)
        listing (0%N, 0%N, total_size_scanned, status_text) in
    ((total_size + subdir_size)%N, (file_count + subdir_file_count)%N,
     total_size_scanned', status_text').
Proof. reflexivity. Qed.

Lemma checker_loop_adds (listing : list DirEntry) :
  Forall (fun entry => forall folder_path total_size file_count scanned status_text,
            fst (Folder_Checker.scan_entry folder_path entry
                   (total_size, file_count, scanned, status_text))
            = ((total_size + sum_lengths (lengths entry))%N,
               (file_count + count (lengths entry))%N,
               (scanned + sum_lengths (lengths entry))%N)) listing ->
  forall folder_path total_size file_count scanned status_text,
    fst (fold_left (fun state e => Folder_Checker.scan_entry folder_path e state)
           listing (total_size, file_count, scanned, status_text))
    = ((total_size + sum_lengths (flat_map lengths listing))%N,
       (file_count + count (flat_map lengths listing))%N,
       (scanned + sum_lengths (flat_map lengths listing))%N).
Proof.
  induction 1 as [|e l He _ IH];
    intros folder_path total_size file_count scanned status_text.
  - simpl. f_equal; [f_equal|]; unfold count; simpl; lia.
  - cbn [fold_left flat_map].
    specialize (He folder_path total_size file_count scanned status_text).
    destruct (Folder_Checker.scan_entry folder_path e _) as [[[t c] sc] st'].
    simpl in He. injection He as -> -> ->.
    rewrite IH, sum_lengths_app, count_app. f_equal; [f_equal|]; lia.
Qed.

Lemma checker_entry_adds (entry : DirEntry) :
  forall folder_path total_size file_count scanned status_text,
    fst (Folder_Checker.scan_entry folder_path entry
           (total_size, file_count, scanned, status_text))
    = ((total_size + sum_lengths (lengths entry))%N,
       (file_count + count (lengths entry))%N,
       (scanned + sum_lengths (lengths entry))%N).
Proof.
  induction entry as [n st_size | n listing IH | n] using DirEntry_tree_ind;
    intros folder_path total_size file_count scanned status_text.
  - simpl. f_equal; [f_equal|]; unfold count; simpl; lia.
  - rewrite checker_scan_entry_dir.
    pose proof (checker_loop_adds listing IH (Py.path_join folder_path n)
                  0%N 0%N scanned status_text) as H.
    destruct (fold_left _ listing _) as [[[t c] sc] st'].
    simpl in H. injection H as -> -> ->. reflexivity.
  - simpl. f_equal; [f_equal|]; unfold count; simpl; lia.
Qed.

Lemma checker_totals folder_path listing status_text scanned :
  fst (Folder_Checker.get_folder_info folder_path listing status_text scanned)
  = (total_length listing, number_of_files listing,
     (scanned + total_length listing)%N).
Proof.
  unfold Folder_Checker.get_folder_info.
  pose proof (checker_loop_adds listing) as H.
  specialize (H (proj2 (Forall_forall _ _) (fun e _ => checker_entry_adds e))
                folder_path 0%N 0%N scanned status_text).
  destruct (fold_left _ listing _) as [[[t c] sc] st'].
  simpl in H. injection H as -> -> ->. reflexivity.
Qed.

End Scanner.

(** C1: a folder tree with N regular files whose lengths sum to L scans to
    [total_size = L] and [file_count = N] in both pages' scanners, whatever
    the nesting of the directories and whether or not a placeholder is
    passed (the totals are those of the flattened list of files); an empty
    directory scans to [(0, 0)]. *)
Theorem get_folder_info_totals :
  (forall folder_path listing status_text,
      fst (Folder_Analyzer.get_folder_info folder_path listing status_text)
      = (FS.total_length listing, FS.number_of_files listing))
  /\ (forall folder_path listing status_text total_size_scanned,
         fst (fst (Folder_Checker.get_folder_info folder_path listing status_text
                     total_size_scanned))
         = (FS.total_length listing, FS.number_of_files listing))
  /\ (forall folder_path listing listing' status_text,
         Permutation (FS.regular_files listing) (FS.regular_files listing') ->
         fst (Folder_Analyzer.get_folder_info folder_path listing status_text)
         = fst (Folder_Analyzer.get_folder_info folder_path listing' status_text)
         /\ fst (fst (Folder_Checker.get_folder_info folder_path listing status_text 0%N))
            = fst (fst (Folder_Checker.get_folder_info folder_path listing' status_text 0%N)))
  /\ (forall folder_path status_text,
         fst (Folder_Analyzer.get_folder_info folder_path [] status_text) = (0%N, 0%N)
         /\ fst (fst (Folder_Checker.get_folder_info folder_path [] status_text 0%N))
            = (0%N, 0%N)).
Proof.
  repeat split; intros.
  - apply analyzer_totals.
  - rewrite checker_totals. reflexivity.
  - rewrite !analyzer_totals. unfold FS.total_length, FS.number_of_files.
    now rewrite (sum_lengths_perm _ _ H), (count_perm _ _ H).
  - rewrite !checker_totals. unfold FS.total_length, FS.number_of_files. simpl.
    now rewrite (sum_lengths_perm _ _ H), (count_perm _ _ H).
Qed.

Lemma demo_folders_hold_the_same_files :
  Permutation (FS.regular_files Demo.folder_a) (FS.regular_files Demo.folder_b).
Proof.
  change (Permutation [1000; 300; 200]%N [200; 300; 1000]%N).
  apply perm_trans with [300; 1000; 200]%N; [apply perm_swap|].
  apply perm_trans with [300; 200; 1000]%N; [apply perm_skip, perm_swap|].
  apply perm_swap.
Qed.

Lemma get_folder_info_totals_witness :
  fst (Folder_Analyzer.get_folder_info "/mnt/A" Demo.folder_a None)
  = fst (Folder_Analyzer.get_folder_info "/mnt/A" Demo.folder_b None)
  /\ fst (fst (Folder_Checker.get_folder_info "/mnt/A" Demo.folder_a None 0%N))
     = fst (fst (Folder_Checker.get_folder_info "/mnt/A" Demo.folder_b None 0%N)).
Proof.
  apply (proj1 (proj2 (proj2 get_folder_info_totals))
           "/mnt/A" Demo.folder_a Demo.folder_b None).
  exact demo_folders_hold_the_same_files.
Defined.

(** With a placeholder the scan does report: one text per entry in the
    analyzer, one per regular file in the checker. *)
Example get_folder_info_reports :
  snd (Folder_Analyzer.get_folder_info "/mnt/C" Demo.folder_c (Some []))
  = Some ["Scanning a.mov, in /mnt/C"; "Scanning empty, in /mnt/C";
          "Scanning c.txt, in /mnt/C"]
  /\ snd (Folder_Checker.get_folder_info "/mnt/A" Demo.folder_a (Some []) 0%N)
     = Some ["Scanning /mnt/A"; "Scanning /mnt/A/renders/v1"; "Scanning /mnt/A"]
  /\ Folder_Checker.get_folder_info "/mnt/A" Demo.folder_a None 0%N
     = ((1500%N, 3%N, 1500%N), None).
Proof. repeat split; vm_compute; reflexivity. Qed.

(** C5: the tuple a scan returns is the same with a placeholder, whatever it
    showed before, and without one, in both pages' scanners. *)
Theorem get_folder_info_ignores_status_text :
  forall folder_path listing shown total_size_scanned,
    fst (Folder_Analyzer.get_folder_info folder_path listing (Some shown))
    = fst (Folder_Analyzer.get_folder_info folder_path listing None)
    /\ fst (Folder_Checker.get_folder_info folder_path listing (Some shown)
              total_size_scanned)
       = fst (Folder_Checker.get_folder_info folder_path listing None
                total_size_scanned).
Proof.
  intros. split.
  - now rewrite !analyzer_totals.
  - now rewrite !checker_totals.
Qed.

(** ** The greedy fitter *)

Section Fitter.

Import Folder_Analyzer.

(** *** The sort is the stable descending sort *)

Lemma insert_by_size_perm x l : Permutation (insert_by_size x l) (x :: l).
Proof.
  induction l as [|y l IH]; simpl; [reflexivity|].
  destruct (snd x <? snd y)%N; [|reflexivity].
  rewrite IH. apply perm_swap.
Qed.

Lemma sort_by_size_desc_perm l : Permutation (sort_by_size_desc l) l.
Proof.
  induction l as [|x l IH]; simpl; [reflexivity|].
  rewrite insert_by_size_perm. now constructor.
Qed.

Lemma sort_by_size_desc_In x l : In x (sort_by_size_desc l) <-> In x l.
Proof.
  split; apply Permutation_in;
    [|symmetry]; apply sort_by_size_desc_perm.
Qed.

Lemma insert_by_size_sorted x l :
  Sorted not_smaller l -> Sorted not_smaller (insert_by_size x l).
Proof.
  induction 1 as [|y l Hl IH Hhd]; simpl.
  - repeat constructor.
  - destruct (N.ltb_spec (snd x) (snd y)) as [Hlt|Hge].
    + constructor; [exact IH|].
      destruct l as [|z l]; simpl.
      * constructor. unfold not_smaller. lia.
      * destruct (N.ltb_spec (snd x) (snd z)); constructor.
        -- now inversion Hhd.
        -- unfold not_smaller. lia.
    + constructor; [now constructor|].
      constructor. exact Hge.
Qed.

Lemma sort_by_size_desc_sorted l : Sorted not_smaller (sort_by_size_desc l).
Proof.
  induction l as [|x l IH]; simpl; [constructor|].
  now apply insert_by_size_sorted.
Qed.

(** Items of one size come out in the order they went in. *)
Lemma insert_by_size_stable k x l :
  filter (fun it => (snd it =? k)%N) (insert_by_size x l)
  = filter (fun it => (snd it =? k)%N) (x :: l).
Proof.
  induction l as [|y l IH]; [reflexivity|].
  cbn [insert_by_size].
  destruct (N.ltb_spec (snd x) (snd y)) as [Hlt|Hge]; [|reflexivity].
  cbn [filter] in *. rewrite IH.
  destruct (N.eqb_spec (snd x) k) as [Hx|Hx]; [|reflexivity].
  destruct (N.eqb_spec (snd y) k) as [Hy|Hy]; [lia|reflexivity].
Qed.

Lemma sort_by_size_desc_stable k l :
  filter (fun it => (snd it =? k)%N) (sort_by_size_desc l)
  = filter (fun it => (snd it =? k)%N) l.
Proof.
  induction l as [|x l IH]; [reflexivity|].
  cbn [sort_by_size_desc fold_right].
  rewrite insert_by_size_stable. cbn [filter].
  fold (sort_by_size_desc l). now rewrite IH.
Qed.

(** *** The loop *)

Lemma size_of_nonneg item : 0 <= size_of item.
Proof.
  unfold size_of, bytes. change 0 with (inject_Z 0). rewrite <- Zle_Qle. lia.
Qed.

Lemma bytes_selected_app res item :
  bytes (selected_bytes (res ++ [item])) == bytes (selected_bytes res) + size_of item.
Proof.
  unfold size_of, bytes. rewrite <- inject_Z_plus.
  apply inject_Z_injective.
  induction res as [|x res IH]; simpl in *; lia.
Qed.

Lemma fit_step_cases state item :
  (size_of item <= snd state
   /\ fit_step state item = ((fst state ++ [item])%list, snd state - size_of item))
  \/ (snd state < size_of item /\ fit_step state item = state).
Proof.
  destruct state as [res rem]. unfold fit_step. simpl.
  destruct (Qle_bool (size_of item) rem) eqn:E.
  - left. split; [now apply Qle_bool_iff|reflexivity].
  - right. split; [|reflexivity].
    apply Qnot_le_lt. intros H. apply Qle_bool_iff in H. congruence.
Qed.

(** A property of the loop state that every iteration keeps holds when
    the loop ends. *)
Lemma fit_loop_invariant (P : list (string * N) * Q -> Prop) items :
  (forall state item, In item items -> P state -> P (fit_step state item)) ->
  forall state, P state -> P (fold_left fit_step items state).
Proof.
  induction items as [|x items IH]; intros Hstep state H0; simpl; [exact H0|].
  apply IH.
  - intros st it Hin. apply Hstep. now right.
  - apply Hstep; [now left|exact H0].
Qed.

Lemma adjusted_formula cap margin :
  adjusted_hard_disk_size_bytes cap margin
  == cap * inject_Z (2 ^ 40) * (1 - margin / 100).
Proof.
  unfold adjusted_hard_disk_size_bytes, safety_margin, hard_disk_size_bytes.
  change (1024 ^ 4)%Z with (2 ^ 40)%Z. unfold Qdiv. ring.
Qed.

(** What was selected and what remains make up the adjusted capacity, and
    nothing is left below zero once the capacity allows it or an item went
    in. *)
Lemma fit_loop_balance items adjusted :
  let final := fold_left fit_step items ([], adjusted) in
  bytes (selected_bytes (fst final)) + snd final == adjusted
  /\ (0 <= adjusted \/ fst final <> [] -> 0 <= snd final).
Proof.
  apply (fit_loop_invariant
           (fun st => bytes (selected_bytes (fst st)) + snd st == adjusted
                      /\ (0 <= adjusted \/ fst st <> [] -> 0 <= snd st))).
  - intros state item _ [Hsum Hpos].
    destruct (fit_step_cases state item) as [[Hle ->]|[_ ->]]; [|now split].
    cbn [fst snd]. split.
    + rewrite bytes_selected_app. rewrite <- Hsum. ring.
    + intros _. lra.
  - simpl. split.
    + unfold bytes. simpl. ring.
    + intros [H|H]; [exact H|congruence].
Qed.

(** Every selected item is an item of the input that fitted the adjusted
    capacity, and the remaining space never grows. *)
Lemma fit_loop_selects_fitting items adjusted :
  let final := fold_left fit_step items ([], adjusted) in
  snd final <= adjusted
  /\ Forall (fun item => In item items /\ size_of item <= adjusted) (fst final).
Proof.
  apply (fit_loop_invariant
           (fun st => snd st <= adjusted
                      /\ Forall (fun item => In item items /\ size_of item <= adjusted)
                           (fst st))).
  - intros state item Hin [Hrem Hall].
    destruct (fit_step_cases state item) as [[Hle ->]|[_ ->]]; [|now split].
    cbn [fst snd]. pose proof (size_of_nonneg item). split; [lra|].
    apply Forall_app. split; [exact Hall|].
    constructor; [|constructor]. split; [exact Hin|lra].
  - simpl. split; [lra|constructor].
Qed.

Lemma items_of_infos (folder_infos : list folder_info) item :
  In item
    (sort_by_size_desc
       (map (fun info : folder_info => let '(folder, size, _) := info in (folder, size))
            folder_infos)) ->
  exists info, In info folder_infos /\ snd (fst info) = snd item.
Proof.
  rewrite sort_by_size_desc_In, in_map_iff.
  intros [[[folder size] file_count] [<- Hin]].
  eexists. split; [exact Hin|reflexivity].
Qed.

(** The plan of [efficient_fitting_greedy] against the adjusted capacity of
    the specification: the balance of selected and remaining bytes, the
    sign of what remains, and where the selected items come from. *)
Lemma efficient_fitting_greedy_plan folder_infos cap margin :
  let plan := efficient_fitting_greedy folder_infos cap margin in
  let adjusted := cap * inject_Z (2 ^ 40) * (1 - margin / 100) in
  bytes (selected_bytes (fst plan)) + snd plan == adjusted
  /\ (0 <= adjusted \/ fst plan <> [] -> 0 <= snd plan)
  /\ snd plan <= adjusted
  /\ Forall (fun item =>
               (exists info, In info folder_infos /\ snd (fst info) = snd item)
               /\ size_of item <= adjusted)
       (fst plan).
Proof.
  intros plan adjusted. subst plan adjusted.
  unfold efficient_fitting_greedy.
  set (items := sort_by_size_desc _).
  destruct (fit_loop_balance items (adjusted_hard_disk_size_bytes cap margin))
    as [Hsum Hpos].
  destruct (fit_loop_selects_fitting items (adjusted_hard_disk_size_bytes cap margin))
    as [Hrem Hall].
  pose proof (adjusted_formula cap margin) as Hadj.
  split; [now rewrite <- Hadj|]. split; [now rewrite <- Hadj|].
  split; [now rewrite <- Hadj|].
  eapply Forall_impl; [|exact Hall].
  intros item [Hin Hfit]. split; [|now rewrite <- Hadj].
  now apply items_of_infos.
Qed.

End Fitter.


(** ** The comparator *)

Section Comparator.

Import FS Folder_Checker.

Lemma pair_eqb_eq (p q : string * string) : Py.pair_eqb p q = true <-> p = q.
Proof.
  destruct p as [a b], q as [c d]. unfold Py.pair_eqb. simpl.
  rewrite andb_true_iff, !String.eqb_eq.
  split; [intros [-> ->]; reflexivity | intros [= -> ->]; now split].
Qed.

(** [index] finds the first position that holds the element, and finds
    one whenever the element is in the list. *)
Lemma index_first (l : list (string * string)) (x : string * string) (k : nat) :
  Py.index Py.pair_eqb l x = Py.Ok k <->
  nth_error l k = Some x /\ forall j, (j < k)%nat -> nth_error l j <> Some x.
Proof.
  revert k. induction l as [|y l IH]; intros k; simpl.
  - split; [discriminate|]. intros [H _]. now destruct k.
  - destruct (Py.pair_eqb y x) eqn:E.
    + apply pair_eqb_eq in E. subst y. split.
      * intros [= <-]. split; [reflexivity|]. intros j Hj. lia.
      * intros [Hk Hmin]. destruct k as [|k]; [reflexivity|].
        exfalso. apply (Hmin 0%nat); [lia|reflexivity].
    + assert (Hne : y <> x).
      { intros ->. rewrite (proj2 (pair_eqb_eq x x) eq_refl) in E. discriminate. }
      destruct (Py.index Py.pair_eqb l x) as [k'|e] eqn:Ei; simpl.
      * split.
        -- intros [= <-]. destruct (proj1 (IH k') eq_refl) as [Hk Hmin].
           split; [exact Hk|]. intros [|j] Hj; simpl.
           ++ congruence.
           ++ apply Hmin. lia.
        -- intros [Hk Hmin]. destruct k as [|k]; simpl in Hk; [congruence|].
           f_equal. f_equal.
           assert (H : Py.Ok k' = Py.Ok k :> Py.result nat); [|congruence].
           apply IH. split; [exact Hk|].
           intros j Hj. apply (Hmin (S j)). lia.
      * split; [discriminate|].
        intros [Hk Hmin]. destruct k as [|k]; simpl in Hk; [congruence|].
        assert (H : Py.Raise e = Py.Ok k :> Py.result nat); [|discriminate].
        apply IH. split; [exact Hk|].
        intros j Hj. apply (Hmin (S j)). lia.
Qed.

Lemma index_of_member (l : list (string * string)) (x : string * string) :
  In x l -> exists k, Py.index Py.pair_eqb l x = Py.Ok k.
Proof.
  induction l as [|y l IH]; simpl; [contradiction|].
  intros Hin. destruct (Py.pair_eqb y x) eqn:E; [now exists 0%nat|].
  destruct Hin as [->|Hin].
  - rewrite (proj2 (pair_eqb_eq x x) eq_refl) in E. discriminate.
  - destruct (IH Hin) as [k ->]. now exists (S k).
Qed.

(** What one iteration computes, read off a successful result. *)
Lemma compare_pair_inv fs directory_pairs size_threshold file_count_threshold
    status_text dir_a dir_b c status_text' :
  compare_pair fs directory_pairs size_threshold file_count_threshold
    status_text (dir_a, dir_b) = Py.Ok (c, status_text') ->
  exists listing_a listing_b k,
    fs dir_a = Some listing_a /\ fs dir_b = Some listing_b
    /\ Py.index Py.pair_eqb directory_pairs (dir_a, dir_b) = Py.Ok k
    /\ size_delta c
       = Z.abs (Z.of_N (total_length listing_a) - Z.of_N (total_length listing_b))
    /\ file_count_delta c
       = Z.abs (Z.of_N (number_of_files listing_a) - Z.of_N (number_of_files listing_b))
    /\ identical c
       = ((size_delta c <=? size_threshold)%Z
          && (file_count_delta c <=? file_count_threshold)%Z)
    /\ result c
       = if identical c
         then identical_message dir_a dir_b (Z.of_nat k + 1)
                (total_length listing_a) (number_of_files listing_a)
         else different_message dir_a dir_b (Z.of_nat k + 1)
                (size_delta c) (file_count_delta c).
Proof.
  unfold compare_pair, scandir.
  destruct (fs dir_a) as [listing_a|]; [|discriminate]. cbn [Py.bind].
  pose proof (checker_totals dir_a listing_a status_text 0%N) as Ha.
  destruct (get_folder_info dir_a listing_a status_text 0%N)
    as [[[size_a num_files_a] scanned_a] status1].
  cbn [fst] in Ha. injection Ha as -> -> _.
  destruct (fs dir_b) as [listing_b|]; [|discriminate]. cbn [Py.bind].
  pose proof (checker_totals dir_b listing_b status1 0%N) as Hb.
  destruct (get_folder_info dir_b listing_b status1 0%N)
    as [[[size_b num_files_b] scanned_b] status2].
  cbn [fst] in Hb. injection Hb as -> -> _.
  unfold compare, pair_number.
  destruct (Py.index Py.pair_eqb directory_pairs (dir_a, dir_b)) as [k|e];
    cbn [Py.bind].
  - destruct (_ && _) eqn:E; cbn [Py.bind]; intros [= <- <-];
      exists listing_a, listing_b, k; cbn [size_delta file_count_delta identical result];
      rewrite ?E; repeat split; reflexivity.
  - destruct (_ && _); cbn [Py.bind]; discriminate.
Qed.

(** An iteration succeeds when both directories can be listed and the
    pair is one of [directory_pairs]. *)
Lemma compare_pair_returns fs directory_pairs size_threshold file_count_threshold
    status_text dir_a dir_b :
  fs dir_a <> None -> fs dir_b <> None -> In (dir_a, dir_b) directory_pairs ->
  exists c status_text',
    compare_pair fs directory_pairs size_threshold file_count_threshold
      status_text (dir_a, dir_b) = Py.Ok (c, status_text').
Proof.
  intros Ha Hb Hin. unfold compare_pair, scandir.
  destruct (fs dir_a) as [listing_a|]; [|congruence]. cbn [Py.bind].
  destruct (get_folder_info dir_a listing_a status_text 0%N)
    as [[[size_a num_files_a] scanned_a] status1].
  destruct (fs dir_b) as [listing_b|]; [|congruence]. cbn [Py.bind].
  destruct (get_folder_info dir_b listing_b status1 0%N)
    as [[[size_b num_files_b] scanned_b] status2].
  unfold compare, pair_number.
  destruct (index_of_member _ _ Hin) as [k ->]. cbn [Py.bind].
  destruct (_ && _); cbn [Py.bind]; eauto.
Qed.

(** The loop appends, pair by pair and in order, the message and the
    verdict of one iteration. *)
Lemma comparison_loop_inv fs directory_pairs size_threshold file_count_threshold
    todo : forall results status_text out status_text',
  comparison_loop fs directory_pairs size_threshold file_count_threshold
    todo results status_text = Py.Ok (out, status_text') ->
  exists new,
    out = (results ++ new)%list
    /\ Forall2
         (fun dirs r =>
            exists c status1 status2,
              compare_pair fs directory_pairs size_threshold file_count_threshold
                status1 dirs = Py.Ok (c, status2)
              /\ r = (result c, identical c))
         todo new.
Proof.
  induction todo as [|dirs todo IH]; intros results status_text out status_text'.
  - simpl. intros [= <- <-]. exists []. split; [now rewrite app_nil_r|constructor].
  - cbn [comparison_loop].
    destruct (compare_pair fs directory_pairs size_threshold file_count_threshold
                status_text dirs) as [[c status1]|e] eqn:E;
      cbn [Py.bind]; [|discriminate].
    intros H. destruct (IH _ _ _ _ H) as [new [-> Hnew]].
    exists ((result c, identical c) :: new). split.
    + now rewrite <- app_assoc.
    + constructor; [|exact Hnew]. eauto.
Qed.


(** Two runs of the loop, the second over the pairs renamed by [g]: when
    every iteration of the first that returns is matched by one of the
    second, related by [R], the second run returns as well and the
    appended results are related pair by pair. *)
Section Two_runs.
Variables (fs : filesystem).
Variables (pairs1 pairs2 : list (string * string)).
Variables (size1 count1 size2 count2 : Z).
Variable g : string * string -> string * string.
Variable R : comparison -> comparison -> Prop.

Lemma comparison_loop_rel todo :
  (forall dirs, In dirs todo ->
     forall status1 c status1' status2,
       compare_pair fs pairs1 size1 count1 status1 dirs = Py.Ok (c, status1') ->
       exists c' status2',
         compare_pair fs pairs2 size2 count2 status2 (g dirs) = Py.Ok (c', status2')
         /\ R c c') ->
  forall results1 status1 out1 status1' results2 status2,
    comparison_loop fs pairs1 size1 count1 todo results1 status1
    = Py.Ok (out1, status1') ->
    exists out2 status2' new1 new2,
      comparison_loop fs pairs2 size2 count2 (map g todo) results2 status2
      = Py.Ok (out2, status2')
      /\ out1 = (results1 ++ new1)%list /\ out2 = (results2 ++ new2)%list
      /\ Forall2
           (fun r r' =>
              exists c c', r = (result c, identical c)
                           /\ r' = (result c', identical c') /\ R c c')
           new1 new2.
Proof.
  induction todo as [|dirs todo IH];
    intros Hstep results1 status1 out1 status1' results2 status2.
  - simpl. intros [= <- <-]. exists results2, status2, [], [].
    rewrite !app_nil_r. repeat split. constructor.
  - cbn [comparison_loop map].
    destruct (compare_pair fs pairs1 size1 count1 status1 dirs)
      as [[c s1]|e] eqn:E; cbn [Py.bind]; [|discriminate].
    destruct (Hstep dirs (or_introl eq_refl) status1 c s1 status2 E)
      as [c' [s2 [E' HR]]].
    rewrite E'. cbn [Py.bind]. intros H.
    specialize (IH (fun d Hd => Hstep d (or_intror Hd))).
    destruct (IH _ _ _ _ (results2 ++ [(result c', identical c')])%list s2 H)
      as [out2 [status2' [new1 [new2 [H2 [-> [-> Hall]]]]]]].
    exists ((results2 ++ [(result c', identical c')]) ++ new2)%list, status2',
      ((result c, identical c) :: new1), ((result c', identical c') :: new2).
    split; [exact H2|]. rewrite <- !app_assoc. repeat split.
    constructor; [|exact Hall]. eauto.
Qed.
End Two_runs.


Lemma Forall2_nth_error_left {A B} (P : A -> B -> Prop) l l' i a :
  Forall2 P l l' -> nth_error l i = Some a ->
  exists b, nth_error l' i = Some b /\ P a b.
Proof.
  intros H. revert i. induction H as [|x y l l' Hxy _ IH]; intros [|i]; simpl;
    try discriminate.
  - intros [= ->]. eauto.
  - apply IH.
Qed.

(** Both messages open with the two paths and the pair number. *)
Lemma message_prefix dir_a dir_b number (b : bool) size_a num_files_a sd fd :
  exists rest,
    (if b then identical_message dir_a dir_b number size_a num_files_a
     else different_message dir_a dir_b number sd fd)
    = "Directory pair " ++ dir_a ++ " and " ++ dir_b
        ++ " (pair " ++ Py.str number ++ ") are " ++ rest.
Proof.
  destruct b; eexists; unfold identical_message, different_message;
    repeat (f_equal; try reflexivity).
Qed.

End Comparator.

(** The selection of the specification's example: of x (500 GiB), y (300 GiB)
    and z (400 GiB) on a 1 TB disk with a margin of 10 percent, x and z go in
    and y does not. *)
Example efficient_fitting_greedy_example :
  fst (Folder_Analyzer.efficient_fitting_greedy Demo.folder_infos 1 10)
  = [("x", 500 * 1024 ^ 3); ("z", 400 * 1024 ^ 3)]%N.
Proof. vm_compute. reflexivity. Qed.









(** C8: with a safety margin of 100 percent the adjusted capacity is 0 and
    the selection is empty, for every capacity, when no item has size 0. *)
Theorem fit_full_margin_selects_nothing :
  forall folder_infos capacity_tb,
    Folder_Analyzer.adjusted_hard_disk_size_bytes capacity_tb 100 == 0
    /\ (Forall (fun info : Folder_Analyzer.folder_info => snd (fst info) <> 0%N)
          folder_infos ->
        fst (Folder_Analyzer.efficient_fitting_greedy folder_infos capacity_tb 100)
        = []).
Proof.
  intros folder_infos cap.
  assert (Hzero : cap * inject_Z (2 ^ 40) * (1 - 100 / 100) == 0).
  { setoid_replace (100 / 100) with 1 by reflexivity. ring. }
  split; [now rewrite adjusted_formula|]. intros Hsizes.
  destruct (efficient_fitting_greedy_plan folder_infos cap 100)
    as [_ [_ [_ Hall]]].
  destruct (fst (Folder_Analyzer.efficient_fitting_greedy folder_infos cap 100))
    as [|item rest]; [reflexivity|exfalso].
  inversion Hall as [|? ? [[info [Hinfo Hsize]] Hfit] _]; subst.
  rewrite Forall_forall in Hsizes. specialize (Hsizes _ Hinfo). cbv beta in Hsizes.
  rewrite Hzero in Hfit.
  unfold Folder_Analyzer.size_of, Folder_Analyzer.bytes in Hfit.
  change 0 with (inject_Z 0) in Hfit. rewrite <- Zle_Qle in Hfit. lia.
Qed.

Lemma fit_full_margin_selects_nothing_witness :
  fst (Folder_Analyzer.efficient_fitting_greedy
         [("x", 500%N, 7%N); ("y", 1%N, 2%N)] 3 100) = [].
Proof.
  apply (proj2 (fit_full_margin_selects_nothing [("x", 500%N, 7%N); ("y", 1%N, 2%N)] 3)).
  repeat constructor; simpl; discriminate.
Defined.

(** The run of the comparator on the demo file system returns, and the
    second entry of the pair A, B is reported as pair 1. *)
Example start_comparison_demo :
  Folder_Checker.start_comparison Demo.fs Demo.directory_pairs 2000 0 None
  = Py.Ok Demo.run
  /\ map snd (fst Demo.run) = [true; false; true]
  /\ nth_error (map fst (fst Demo.run)) 2
     = Some ("Directory pair /mnt/A and /mnt/B (pair 1) are identical. "
             ++ "The directory size is 1500 bytes, and it contains 3 files." ++ Py.nl).
Proof. repeat split; vm_compute; reflexivity. Qed.

(** C3: for every pair of a run that returns, the verdict is [true] exactly
    when the absolute difference of the two scanned sizes is at most
    [size_threshold] and the absolute difference of the two scanned file
    counts is at most [file_count_threshold]; the message of a pair found
    different reports these two absolute differences, the message of a pair
    found identical the size and the file count of the first side. *)
Theorem start_comparison_classifies :
  forall fs directory_pairs size_threshold file_count_threshold status_text
         results status_text',
    Folder_Checker.start_comparison fs directory_pairs size_threshold
      file_count_threshold status_text = Py.Ok (results, status_text') ->
    Forall2
      (fun dirs r =>
         exists listing_a listing_b,
           fs (fst dirs) = Some listing_a /\ fs (snd dirs) = Some listing_b
           /\ let '(size_a, num_files_a, _) :=
                fst (Folder_Checker.get_folder_info (fst dirs) listing_a None 0%N) in
              let '(size_b, num_files_b, _) :=
                fst (Folder_Checker.get_folder_info (snd dirs) listing_b None 0%N) in
              let size_delta := Z.abs (Z.of_N size_a - Z.of_N size_b) in
              let file_count_delta := Z.abs (Z.of_N num_files_a - Z.of_N num_files_b) in
              (snd r = true <->
               (size_delta <= size_threshold)%Z
               /\ (file_count_delta <= file_count_threshold)%Z)
              /\ (snd r = false ->
                  exists number,
                    fst r = Folder_Checker.different_message (fst dirs) (snd dirs)
                              number size_delta file_count_delta)
              /\ (snd r = true ->
                  exists number,
                    fst r = Folder_Checker.identical_message (fst dirs) (snd dirs)
                              number size_a num_files_a))
      directory_pairs results.
Proof.
  intros fs pairs st ft status results status' H.
  destruct (comparison_loop_inv _ _ _ _ _ _ _ _ _ H) as [new [-> Hall]].
  simpl. eapply Forall2_impl; [|exact Hall].
  intros [dir_a dir_b] r [c [s1 [s2 [Hc ->]]]].
  destruct (compare_pair_inv _ _ _ _ _ _ _ _ _ Hc)
    as [la [lb [k [Ha [Hb [_ [Hsd [Hfd [Hid Hres]]]]]]]]].
  exists la, lb. cbn [fst snd]. rewrite !checker_totals. cbn [fst].
  rewrite <- Hsd, <- Hfd.
  split; [exact Ha|]. split; [exact Hb|]. split; [split|split].
  - intros Htrue. rewrite Hid in Htrue. apply andb_true_iff in Htrue.
    now rewrite !Z.leb_le in Htrue.
  - intros Hle. rewrite Hid. apply andb_true_iff. now rewrite !Z.leb_le.
  - intros Hfalse. rewrite Hfalse in Hres. eauto.
  - intros Htrue. rewrite Htrue in Hres. eauto.
Qed.

Lemma start_comparison_classifies_witness :
  Forall2
    (fun dirs r =>
       exists listing_a listing_b,
         Demo.fs (fst dirs) = Some listing_a /\ Demo.fs (snd dirs) = Some listing_b
         /\ let '(size_a, num_files_a, _) :=
              fst (Folder_Checker.get_folder_info (fst dirs) listing_a None 0%N) in
            let '(size_b, num_files_b, _) :=
              fst (Folder_Checker.get_folder_info (snd dirs) listing_b None 0%N) in
            let size_delta := Z.abs (Z.of_N size_a - Z.of_N size_b) in
            let file_count_delta := Z.abs (Z.of_N num_files_a - Z.of_N num_files_b) in
            (snd r = true <->
             (size_delta <= 2000)%Z /\ (file_count_delta <= 0)%Z)
            /\ (snd r = false ->
                exists number,
                  fst r = Folder_Checker.different_message (fst dirs) (snd dirs)
                            number size_delta file_count_delta)
            /\ (snd r = true ->
                exists number,
                  fst r = Folder_Checker.identical_message (fst dirs) (snd dirs)
                            number size_a num_files_a))
    Demo.directory_pairs (fst Demo.run).
Proof.
  apply (start_comparison_classifies Demo.fs Demo.directory_pairs 2000 0 None
           (fst Demo.run) (snd Demo.run)).
  vm_compute. reflexivity.
Defined.

(** C6: when a run with the thresholds (s, f) returns, the run with
    thresholds (s', f'), s <= s' and f <= f', returns as well, and every
    pair the first run found identical is found identical by the second. *)
Theorem raising_thresholds_keeps_identical :
  forall fs directory_pairs s f s' f' status_text results status_text' status_text2,
    (s <= s')%Z -> (f <= f')%Z ->
    Folder_Checker.start_comparison fs directory_pairs s f status_text
    = Py.Ok (results, status_text') ->
    exists results' status_text2',
      Folder_Checker.start_comparison fs directory_pairs s' f' status_text2
      = Py.Ok (results', status_text2')
      /\ Forall2 (fun r r' => snd r = true -> snd r' = true) results results'.
Proof.
  intros fs pairs s f s' f' status results status' status2 Hs Hf H.
  unfold Folder_Checker.start_comparison in *.
  pose proof (comparison_loop_rel fs pairs pairs s f s' f' (fun dirs => dirs)
                (fun c c' => Folder_Checker.identical c = true ->
                             Folder_Checker.identical c' = true) pairs) as Hrel.
  assert (Hstep : forall dirs, In dirs pairs ->
            forall st1 c st1' st2,
              Folder_Checker.compare_pair fs pairs s f st1 dirs = Py.Ok (c, st1') ->
              exists c' st2',
                Folder_Checker.compare_pair fs pairs s' f' st2 dirs = Py.Ok (c', st2')
                /\ (Folder_Checker.identical c = true ->
                    Folder_Checker.identical c' = true)).
  { intros [dir_a dir_b] Hin st1 c st1' st2 Hc.
    destruct (compare_pair_inv _ _ _ _ _ _ _ _ _ Hc)
      as [la [lb [k [Ha [Hb [Hk [Hsd [Hfd [Hid _]]]]]]]]].
    destruct (compare_pair_returns fs pairs s' f' st2 dir_a dir_b) as [c' [st2' Hc']];
      [congruence|congruence|exact Hin|].
    exists c', st2'. split; [exact Hc'|].
    destruct (compare_pair_inv _ _ _ _ _ _ _ _ _ Hc')
      as [la' [lb' [k' [Ha' [Hb' [_ [Hsd' [Hfd' [Hid' _]]]]]]]]].
    assert (la' = la) by congruence. assert (lb' = lb) by congruence. subst la' lb'.
    rewrite Hid, Hid', !andb_true_iff, !Z.leb_le. lia. }
  destruct (Hrel Hstep _ _ _ _ [] status2 H)
    as [out2 [st2' [new1 [new2 [H2 [-> [-> Hall]]]]]]].
  rewrite map_id in H2. exists ([] ++ new2)%list, st2'. split; [exact H2|].
  simpl. eapply Forall2_impl; [|exact Hall].
  intros r r' [c [c' [-> [-> HR]]]]. exact HR.
Qed.

Lemma raising_thresholds_keeps_identical_witness :
  exists results' status_text2',
    Folder_Checker.start_comparison Demo.fs Demo.directory_pairs 2000 1 None
    = Py.Ok (results', status_text2')
    /\ Forall2 (fun r r' => snd r = true -> snd r' = true) (fst Demo.run) results'.
Proof.
  apply (raising_thresholds_keeps_identical Demo.fs Demo.directory_pairs
           2000 0 2000 1 None (fst Demo.run) (snd Demo.run) None);
    [lia | lia | vm_compute; reflexivity].
Defined.

(** C9: exchanging the two sides of the pairs changes neither verdict nor
    deltas.  For one iteration of the loop: when the iteration for
    [(dir_a, dir_b)] returns, the iteration for [(dir_b, dir_a)] on the
    exchanged list returns the same [identical], [size_delta] and
    [file_count_delta].  For a whole run: the run on the exchanged list
    returns the same verdicts, in the same order. *)
Theorem swapping_sides_keeps_verdict :
  forall fs directory_pairs size_threshold file_count_threshold,
    (forall status_text dir_a dir_b c status_text' status_text2,
        Folder_Checker.compare_pair fs directory_pairs size_threshold
          file_count_threshold status_text (dir_a, dir_b)
        = Py.Ok (c, status_text') ->
        exists c' status_text2',
          Folder_Checker.compare_pair fs (map Folder_Checker.swap directory_pairs)
            size_threshold file_count_threshold status_text2 (dir_b, dir_a)
          = Py.Ok (c', status_text2')
          /\ Folder_Checker.identical c' = Folder_Checker.identical c
          /\ Folder_Checker.size_delta c' = Folder_Checker.size_delta c
          /\ Folder_Checker.file_count_delta c' = Folder_Checker.file_count_delta c)
    /\ (forall status_text results status_text' status_text2,
           Folder_Checker.start_comparison fs directory_pairs size_threshold
             file_count_threshold status_text = Py.Ok (results, status_text') ->
           exists results' status_text2',
             Folder_Checker.start_comparison fs
               (map Folder_Checker.swap directory_pairs) size_threshold
               file_count_threshold status_text2 = Py.Ok (results', status_text2')
             /\ map snd results' = map snd results).
Proof.
  intros fs pairs st ft.
  assert (Hstep : forall status dir_a dir_b c status' status2,
            Folder_Checker.compare_pair fs pairs st ft status (dir_a, dir_b)
            = Py.Ok (c, status') ->
            exists c' status2',
              Folder_Checker.compare_pair fs (map Folder_Checker.swap pairs) st ft
                status2 (dir_b, dir_a) = Py.Ok (c', status2')
              /\ Folder_Checker.identical c' = Folder_Checker.identical c
              /\ Folder_Checker.size_delta c' = Folder_Checker.size_delta c
              /\ Folder_Checker.file_count_delta c'
                 = Folder_Checker.file_count_delta c).
  { intros status dir_a dir_b c status' status2 Hc.
    destruct (compare_pair_inv _ _ _ _ _ _ _ _ _ Hc)
      as [la [lb [k [Ha [Hb [Hk [Hsd [Hfd [Hid _]]]]]]]]].
    assert (Hin : In (dir_b, dir_a) (map Folder_Checker.swap pairs)).
    { apply index_first in Hk. destruct Hk as [Hk _]. apply nth_error_In in Hk.
      change (dir_b, dir_a) with (Folder_Checker.swap (dir_a, dir_b)).
      now apply in_map. }
    destruct (compare_pair_returns fs (map Folder_Checker.swap pairs) st ft status2
                dir_b dir_a) as [c' [status2' Hc']];
      [congruence|congruence|exact Hin|].
    exists c', status2'. split; [exact Hc'|].
    destruct (compare_pair_inv _ _ _ _ _ _ _ _ _ Hc')
      as [lb' [la' [k' [Hb' [Ha' [_ [Hsd' [Hfd' [Hid' _]]]]]]]]].
    assert (la' = la) by congruence. assert (lb' = lb) by congruence. subst la' lb'.
    assert (Hs : Folder_Checker.size_delta c' = Folder_Checker.size_delta c)
      by (rewrite Hsd, Hsd'; lia).
    assert (Hf : Folder_Checker.file_count_delta c' = Folder_Checker.file_count_delta c)
      by (rewrite Hfd, Hfd'; lia).
    repeat split; try assumption.
    now rewrite Hid, Hid', Hs, Hf. }
  split; [exact Hstep|].
  intros status results status' status2 H.
  unfold Folder_Checker.start_comparison in *.
  pose proof (comparison_loop_rel fs pairs (map Folder_Checker.swap pairs)
                st ft st ft Folder_Checker.swap
                (fun c c' => Folder_Checker.identical c' = Folder_Checker.identical c)
                pairs) as Hrel.
  destruct (Hrel (fun dirs _ st1 c st1' st2 =>
                    match dirs with
                    | (dir_a, dir_b) => fun Hc =>
                        match Hstep st1 dir_a dir_b c st1' st2 Hc with
                        | ex_intro _ c' (ex_intro _ st2' (conj Hc' (conj Hi _))) =>
                            ex_intro _ c' (ex_intro _ st2' (conj Hc' Hi))
                        end
                    end) _ _ _ _ [] status2 H)
    as [out2 [st2' [new1 [new2 [H2 [-> [-> Hall]]]]]]].
  exists ([] ++ new2)%list, st2'. split; [exact H2|].
  simpl. clear -Hall. induction Hall as [|r r' l l' [c [c' [-> [-> HR]]]] _ IH];
    simpl; [reflexivity|]. now rewrite IH, HR.
Qed.

Lemma swapping_sides_keeps_verdict_witness :
  exists results' status_text2',
    Folder_Checker.start_comparison Demo.fs
      (map Folder_Checker.swap Demo.directory_pairs) 2000 0 None
    = Py.Ok (results', status_text2')
    /\ map snd results' = map snd (fst Demo.run).
Proof.
  apply (proj2 (swapping_sides_keeps_verdict Demo.fs Demo.directory_pairs 2000 0)
           None (fst Demo.run) (snd Demo.run) None).
  vm_compute. reflexivity.
Defined.

(** C10: in a run that returns, the message for the pair at position [i] of
    the input starts with the two paths and the number [k + 1], where [k] is
    the position of the first occurrence of that pair in the input; when the
    pair occurs before position [i], [k] is smaller than [i], so the message
    carries the number of the first occurrence and not [i + 1]. *)
Theorem message_numbers_first_occurrence :
  forall fs directory_pairs size_threshold file_count_threshold status_text
         results status_text' i dir_a dir_b,
    Folder_Checker.start_comparison fs directory_pairs size_threshold
      file_count_threshold status_text = Py.Ok (results, status_text') ->
    nth_error directory_pairs i = Some (dir_a, dir_b) ->
    exists k rest verdict,
      nth_error results i
      = Some ("Directory pair " ++ dir_a ++ " and " ++ dir_b
                ++ " (pair " ++ Py.str (Z.of_nat k + 1) ++ ") are " ++ rest,
              verdict)
      /\ nth_error directory_pairs k = Some (dir_a, dir_b)
      /\ (forall j, (j < k)%nat -> nth_error directory_pairs j <> Some (dir_a, dir_b))
      /\ (k <= i)%nat
      /\ (forall j, (j < i)%nat -> nth_error directory_pairs j = Some (dir_a, dir_b) ->
                    (k < i)%nat).
Proof.
  intros fs pairs st ft status results status' i dir_a dir_b H Hi.
  destruct (comparison_loop_inv _ _ _ _ _ _ _ _ _ H) as [new [-> Hall]].
  simpl.
  destruct (Forall2_nth_error_left _ _ _ _ _ Hall Hi)
    as [r [Hr [c [s1 [s2 [Hc ->]]]]]].
  destruct (compare_pair_inv _ _ _ _ _ _ _ _ _ Hc)
    as [la [lb [k [_ [_ [Hk [_ [_ [_ Hres]]]]]]]]].
  apply index_first in Hk. destruct Hk as [Hk Hmin].
  destruct (message_prefix dir_a dir_b (Z.of_nat k + 1) (Folder_Checker.identical c)
              (FS.total_length la) (FS.number_of_files la)
              (Folder_Checker.size_delta c) (Folder_Checker.file_count_delta c))
    as [rest Hrest].
  exists k, rest, (Folder_Checker.identical c).
  assert (Hki : (k <= i)%nat).
  { destruct (Nat.le_gt_cases k i) as [Hle|Hgt]; [exact Hle|].
    exfalso. exact (Hmin i Hgt Hi). }
  rewrite Hr, Hres, Hrest. repeat split; try assumption.
  intros j Hj Hpj.
  destruct (Nat.lt_ge_cases k i) as [Hlt|Hge]; [exact Hlt|].
  exfalso. apply (Hmin j); [lia|exact Hpj].
Qed.

Lemma message_numbers_first_occurrence_witness :
  exists k rest verdict,
    nth_error (fst Demo.run) 2
    = Some ("Directory pair " ++ "/mnt/A" ++ " and " ++ "/mnt/B"
              ++ " (pair " ++ Py.str (Z.of_nat k + 1) ++ ") are " ++ rest,
            verdict)
    /\ nth_error Demo.directory_pairs k = Some ("/mnt/A", "/mnt/B")
    /\ (forall j, (j < k)%nat ->
                  nth_error Demo.directory_pairs j <> Some ("/mnt/A", "/mnt/B"))
    /\ (k <= 2)%nat
    /\ (forall j, (j < 2)%nat ->
                  nth_error Demo.directory_pairs j = Some ("/mnt/A", "/mnt/B") ->
                  (k < 2)%nat).
Proof.
  apply (message_numbers_first_occurrence Demo.fs Demo.directory_pairs 2000 0 None
           (fst Demo.run) (snd Demo.run) 2 "/mnt/A" "/mnt/B").
  - vm_compute. reflexivity.
  - reflexivity.
Defined.


(** * Further properties of the two pages *)

(** ** Progress texts of the scanners *)

Section Progress_texts.

Import FS.

Lemma analyzer_loop_texts (listing : list DirEntry) :
  Forall (fun entry => forall folder_path total_size file_count shown,
            exists texts,
              snd (Folder_Analyzer.scan_entry folder_path entry
                     (total_size, file_count, Some shown))
              = Some (shown ++ texts)%list
              /\ List.length texts = Walk.visited entry) listing ->
  forall folder_path total_size file_count shown,
    exists texts,
      snd (fold_left (fun state e => Folder_Analyzer.scan_entry folder_path e state)
             listing (total_size, file_count, Some shown))
      = Some (shown ++ texts)%list
      /\ List.length texts = Walk.entries listing.
Proof.
  induction 1 as [|e l He _ IH]; intros folder_path total_size file_count shown.
  - exists []. simpl. now rewrite app_nil_r.
  - cbn [fold_left].
    destruct (He folder_path total_size file_count shown) as [t1 [H1 L1]].
    destruct (Folder_Analyzer.scan_entry folder_path e _) as [[t c] st'].
    simpl in H1. subst st'.
    destruct (IH folder_path t c (shown ++ t1)%list) as [t2 [H2 L2]].
    exists (t1 ++ t2)%list. split.
    + etransitivity; [exact H2|]. now rewrite app_assoc.
    + rewrite length_app, L1, L2. reflexivity.
Qed.

Lemma analyzer_entry_texts (entry : DirEntry) :
  forall folder_path total_size file_count shown,
    exists texts,
      snd (Folder_Analyzer.scan_entry folder_path entry
             (total_size, file_count, Some shown))
      = Some (shown ++ texts)%list
      /\ List.length texts = Walk.visited entry.
Proof.
  induction entry as [n st_size | n listing IH | n] using DirEntry_tree_ind;
    intros folder_path total_size file_count shown.
  - eexists. simpl. split; reflexivity.
  - rewrite analyzer_scan_entry_dir.
    destruct (analyzer_loop_texts listing IH (Py.path_join folder_path n)
                0%N 0%N shown) as [t1 [H1 L1]].
    destruct (fold_left _ listing _) as [[t c] st'].
    simpl in H1. subst st'.
    exists (t1 ++ [("Scanning " ++ n ++ ", in " ++ folder_path)%string])%list.
    simpl. rewrite app_assoc. split; [reflexivity|].
    rewrite length_app, L1. simpl. fold (Walk.entries listing).
    unfold Walk.entries. lia.
  - eexists. simpl. split; reflexivity.
Qed.

Lemma analyzer_loop_silent (listing : list DirEntry) :
  Forall (fun entry => forall folder_path total_size file_count,
            snd (Folder_Analyzer.scan_entry folder_path entry
                   (total_size, file_count, None)) = None) listing ->
  forall folder_path total_size file_count,
    snd (fold_left (fun state e => Folder_Analyzer.scan_entry folder_path e state)
           listing (total_size, file_count, None)) = None.
Proof.
  induction 1 as [|e l He _ IH]; intros folder_path total_size file_count.
  - reflexivity.
  - cbn [fold_left].
    specialize (He folder_path total_size file_count).
    destruct (Folder_Analyzer.scan_entry folder_path e _) as [[t c] st'].
    simpl in He. subst st'. apply IH.
Qed.

Lemma analyzer_entry_silent (entry : DirEntry) :
  forall folder_path total_size file_count,
    snd (Folder_Analyzer.scan_entry folder_path entry
           (total_size, file_count, None)) = None.
Proof.
  induction entry as [n st_size | n listing IH | n] using DirEntry_tree_ind;
    intros folder_path total_size file_count.
  - reflexivity.
  - rewrite analyzer_scan_entry_dir.
    pose proof (analyzer_loop_silent listing IH (Py.path_join folder_path n)
                  0%N 0%N) as H.
    destruct (fold_left _ listing _) as [[t c] st'].
    simpl in H. subst st'. reflexivity.
  - reflexivity.
Qed.

(** Whatever the entry, the text about it is the last one shown. *)
Lemma analyzer_entry_last_text (entry : DirEntry) folder_path total_size
    file_count shown :
  exists before,
    snd (Folder_Analyzer.scan_entry folder_path entry
           (total_size, file_count, Some shown))
    = Some (before
              ++ [("Scanning " ++ name entry ++ ", in " ++ folder_path)%string])%list.
Proof.
  destruct entry as [n st_size | n listing | n].
  - exists shown. reflexivity.
  - rewrite analyzer_scan_entry_dir.
    destruct (analyzer_loop_texts listing
                (proj2 (Forall_forall _ _) (fun e _ => analyzer_entry_texts e))
                (Py.path_join folder_path n) 0%N 0%N shown) as [t1 [H1 _]].
    destruct (fold_left _ listing _) as [[t c] st'].
    simpl in H1. subst st'. eexists. reflexivity.
  - exists shown. reflexivity.
Qed.

Lemma checker_loop_texts (listing : list DirEntry) :
  Forall (fun entry => forall folder_path total_size file_count scanned shown,
            exists texts,
              snd (Folder_Checker.scan_entry folder_path entry
                     (total_size, file_count, scanned, Some shown))
              = Some (shown ++ texts)%list
              /\ List.length texts = List.length (lengths entry)) listing ->
  forall folder_path total_size file_count scanned shown,
    exists texts,
      snd (fold_left (fun state e => Folder_Checker.scan_entry folder_path e state)
             listing (total_size, file_count, scanned, Some shown))
      = Some (shown ++ texts)%list
      /\ List.length texts = List.length (flat_map lengths listing).
Proof.
  induction 1 as [|e l He _ IH];
    intros folder_path total_size file_count scanned shown.
  - exists []. simpl. now rewrite app_nil_r.
  - cbn [fold_left flat_map].
    destruct (He folder_path total_size file_count scanned shown) as [t1 [H1 L1]].
    destruct (Folder_Checker.scan_entry folder_path e _) as [[[t c] sc] st'].
    simpl in H1. subst st'.
    destruct (IH folder_path t c sc (shown ++ t1)%list) as [t2 [H2 L2]].
    exists (t1 ++ t2)%list. split.
    + etransitivity; [exact H2|]. now rewrite app_assoc.
    + rewrite !length_app, L1, L2. reflexivity.
Qed.

Lemma checker_entry_texts (entry : DirEntry) :
  forall folder_path total_size file_count scanned shown,
    exists texts,
      snd (Folder_Checker.scan_entry folder_path entry
             (total_size, file_count, scanned, Some shown))
      = Some (shown ++ texts)%list
      /\ List.length texts = List.length (lengths entry).
Proof.
  induction entry as [n st_size | n listing IH | n] using DirEntry_tree_ind;
    intros folder_path total_size file_count scanned shown.
  - eexists. simpl. split; reflexivity.
  - rewrite checker_scan_entry_dir.
    destruct (checker_loop_texts listing IH (Py.path_join folder_path n)
                0%N 0%N scanned shown) as [t1 [H1 L1]].
    destruct (fold_left _ listing _) as [[[t c] sc] st'].
    simpl in H1. subst st'. exists t1. split; [reflexivity|exact L1].
  - exists []. simpl. now rewrite app_nil_r.
Qed.

Lemma checker_loop_silent (listing : list DirEntry) :
  Forall (fun entry => forall folder_path total_size file_count scanned,
            snd (Folder_Checker.scan_entry folder_path entry
                   (total_size, file_count, scanned, None)) = None) listing ->
  forall folder_path total_size file_count scanned,
    snd (fold_left (fun state e => Folder_Checker.scan_entry folder_path e state)
           listing (total_size, file_count, scanned, None)) = None.
Proof.
  induction 1 as [|e l He _ IH]; intros folder_path total_size file_count scanned.
  - reflexivity.
  - cbn [fold_left].
    specialize (He folder_path total_size file_count scanned).
    destruct (Folder_Checker.scan_entry folder_path e _) as [[[t c] sc] st'].
    simpl in He. subst st'. apply IH.
Qed.

Lemma checker_entry_silent (entry : DirEntry) :
  forall folder_path total_size file_count scanned,
    snd (Folder_Checker.scan_entry folder_path entry
           (total_size, file_count, scanned, None)) = None.
Proof.
  induction entry as [n st_size | n listing IH | n] using DirEntry_tree_ind;
    intros folder_path total_size file_count scanned.
  - reflexivity.
  - rewrite checker_scan_entry_dir.
    pose proof (checker_loop_silent listing IH (Py.path_join folder_path n)
                  0%N 0%N scanned) as H.
    destruct (fold_left _ listing _) as [[[t c] sc] st'].
    simpl in H. subst st'. reflexivity.
  - reflexivity.
Qed.

End Progress_texts.

(** X1: the third element the checker's scanner returns is the
    [total_size_scanned] it was given plus the [total_size] it returns: the
    running total goes through every recursive call and comes back. *)
Theorem get_folder_info_total_size_scanned :
  forall folder_path listing status_text total_size_scanned,
    snd (fst (Folder_Checker.get_folder_info folder_path listing status_text
                total_size_scanned))
    = (total_size_scanned
       + fst (fst (fst (Folder_Checker.get_folder_info folder_path listing
                          status_text total_size_scanned))))%N.
Proof.
  intros. rewrite checker_totals. reflexivity.
Qed.

(** X2: with a placeholder, the analyzer's scanner shows one text for every
    entry of the tree, directories and special entries included, after the
    texts shown before; without a placeholder there is none afterwards
    either. *)
Theorem analyzer_shows_a_text_per_entry :
  forall folder_path listing shown,
    (exists texts,
        snd (Folder_Analyzer.get_folder_info folder_path listing (Some shown))
        = Some (shown ++ texts)%list
        /\ List.length texts = Walk.entries listing)
    /\ snd (Folder_Analyzer.get_folder_info folder_path listing None) = None.
Proof.
  intros folder_path listing shown. unfold Folder_Analyzer.get_folder_info. split.
  - destruct (analyzer_loop_texts listing
                (proj2 (Forall_forall _ _) (fun e _ => analyzer_entry_texts e))
                folder_path 0%N 0%N shown) as [texts [H L]].
    destruct (fold_left _ listing _) as [[t c] st'].
    exists texts. split; [exact H|exact L].
  - pose proof (analyzer_loop_silent listing
                  (proj2 (Forall_forall _ _) (fun e _ => analyzer_entry_silent e))
                  folder_path 0%N 0%N) as H.
    destruct (fold_left _ listing _) as [[t c] st']. exact H.
Qed.

(** X3: when the analyzer's scan of a folder ends, the placeholder shows
    the text about the last entry of the folder itself, with the folder's
    own path, however deep the walk went below that entry. *)
Theorem analyzer_last_text :
  forall folder_path listing entry shown,
    exists before,
      snd (Folder_Analyzer.get_folder_info folder_path (listing ++ [entry])
             (Some shown))
      = Some (before
                ++ [("Scanning " ++ FS.name entry ++ ", in " ++ folder_path)%string])%list.
Proof.
  intros folder_path listing entry shown.
  unfold Folder_Analyzer.get_folder_info. rewrite fold_left_app.
  destruct (analyzer_loop_texts listing
              (proj2 (Forall_forall _ _) (fun e _ => analyzer_entry_texts e))
              folder_path 0%N 0%N shown) as [texts [H _]].
  destruct (fold_left _ listing _) as [[t c] st']. simpl in H. subst st'.
  cbn [fold_left].
  destruct (analyzer_entry_last_text entry folder_path t c (shown ++ texts)%list)
    as [before Hlast].
  destruct (Folder_Analyzer.scan_entry folder_path entry _) as [[t' c'] st''].
  exists before. exact Hlast.
Qed.

(** X4: with a placeholder, the checker's scanner shows one text for every
    regular file of the tree and none for a directory or a special entry, so
    as many texts as the [file_count] it returns; without a placeholder
    there is none afterwards either. *)
Theorem checker_shows_a_text_per_file :
  forall folder_path listing shown total_size_scanned,
    (exists texts,
        snd (Folder_Checker.get_folder_info folder_path listing (Some shown)
               total_size_scanned)
        = Some (shown ++ texts)%list
        /\ N.of_nat (List.length texts)
           = snd (fst (fst (Folder_Checker.get_folder_info folder_path listing
                              (Some shown) total_size_scanned))))
    /\ snd (Folder_Checker.get_folder_info folder_path listing None
              total_size_scanned) = None.
Proof.
  intros folder_path listing shown scanned. split.
  - rewrite checker_totals. cbn [fst snd].
    unfold Folder_Checker.get_folder_info.
    destruct (checker_loop_texts listing
                (proj2 (Forall_forall _ _) (fun e _ => checker_entry_texts e))
                folder_path 0%N 0%N scanned shown) as [texts [H L]].
    destruct (fold_left _ listing _) as [[[t c] sc] st'].
    exists texts. split; [exact H|].
    rewrite L. reflexivity.
  - unfold Folder_Checker.get_folder_info.
    pose proof (checker_loop_silent listing
                  (proj2 (Forall_forall _ _) (fun e _ => checker_entry_silent e))
                  folder_path 0%N 0%N scanned) as H.
    destruct (fold_left _ listing _) as [[[t c] sc] st']. exact H.
Qed.

(** ** The greedy loop, item by item *)

Section Greedy.

Import Folder_Analyzer.

Lemma fit_loop_cons x items res rem :
  fold_left fit_step (x :: items) (res, rem)
  = if Qle_bool (size_of x) rem
    then fold_left fit_step items ((res ++ [x])%list, rem - size_of x)
    else fold_left fit_step items (res, rem).
Proof.
  simpl. destruct (Qle_bool (size_of x) rem); reflexivity.
Qed.

(** A run that starts with some items already selected selects, after
    them, what the run from the empty selection selects. *)
Lemma fit_loop_from items : forall res rem,
  fold_left fit_step items (res, rem)
  = ((res ++ fst (fold_left fit_step items ([], rem)))%list,
     snd (fold_left fit_step items ([], rem))).
Proof.
  induction items as [|x items IH]; intros res rem.
  - simpl. now rewrite app_nil_r.
  - rewrite !fit_loop_cons. destruct (Qle_bool (size_of x) rem).
    + rewrite (IH (res ++ [x])%list), (IH ([] ++ [x])%list).
      cbn [fst snd]. now rewrite <- app_assoc.
    + apply IH.
Qed.

Lemma fit_loop_accept x items rem :
  Qle_bool (size_of x) rem = true ->
  fold_left fit_step (x :: items) ([], rem)
  = (x :: fst (fold_left fit_step items ([], rem - size_of x)),
     snd (fold_left fit_step items ([], rem - size_of x))).
Proof.
  intros H. rewrite fit_loop_cons, H, fit_loop_from. reflexivity.
Qed.

Lemma fit_loop_reject x items rem :
  Qle_bool (size_of x) rem = false ->
  fold_left fit_step (x :: items) ([], rem) = fold_left fit_step items ([], rem).
Proof.
  intros H. now rewrite fit_loop_cons, H.
Qed.

Lemma Qle_bool_false x y : Qle_bool x y = false -> y < x.
Proof.
  intros H. apply Qnot_le_lt. intros Hle. apply Qle_bool_iff in Hle. congruence.
Qed.


Lemma filter_none {A} (f : A -> bool) l :
  Forall (fun a => f a = false) l -> filter f l = [].
Proof.
  induction 1 as [|a l Ha _ IH]; simpl; [reflexivity|]. now rewrite Ha.
Qed.

(** Of the items of one size, the selected ones come first. *)
Lemma fit_loop_equal_sizes k items : forall rem,
  exists rest,
    filter (fun item => (snd item =? k)%N) items
    = (filter (fun item => (snd item =? k)%N)
         (fst (fold_left fit_step items ([], rem))) ++ rest)%list.
Proof.
  induction items as [|x items IH]; intros rem.
  - exists []. reflexivity.
  - destruct (Qle_bool (size_of x) rem) eqn:E.
    + rewrite (fit_loop_accept _ _ _ E). cbn [fst filter].
      destruct (IH (rem - size_of x)) as [rest ->].
      exists rest. now destruct (snd x =? k)%N.
    + rewrite (fit_loop_reject _ _ _ E). cbn [filter].
      destruct (N.eqb_spec (snd x) k) as [Hk|Hk]; [|apply IH].
      exists (x :: filter (fun item => (snd item =? k)%N) items).
      rewrite (filter_none _ (fst (fold_left fit_step items ([], rem))));
        [reflexivity|].
      destruct (fit_loop_selects_fitting items rem) as [_ Hall].
      eapply Forall_impl; [|exact Hall].
      intros item [_ Hfit]. cbv beta. apply N.eqb_neq. intros Heq.
      apply Qle_bool_false in E.
      unfold size_of in *. rewrite Heq, <- Hk in Hfit. lra.
Qed.

(** Fitting the selection again selects all of it and leaves the same. *)
Lemma fit_loop_again items : forall rem,
  fold_left fit_step (fst (fold_left fit_step items ([], rem))) ([], rem)
  = fold_left fit_step items ([], rem).
Proof.
  induction items as [|x items IH]; intros rem.
  - reflexivity.
  - destruct (Qle_bool (size_of x) rem) eqn:E.
    + rewrite (fit_loop_accept _ _ _ E). cbn [fst].
      rewrite (fit_loop_accept _ _ _ E). now rewrite IH.
    + rewrite (fit_loop_reject _ _ _ E). apply IH.
Qed.

Lemma not_smaller_trans a b c :
  not_smaller a b -> not_smaller b c -> not_smaller a c.
Proof. unfold not_smaller. lia. Qed.

Lemma sort_by_size_desc_strongly_sorted l :
  StronglySorted not_smaller (sort_by_size_desc l).
Proof.
  apply Sorted_StronglySorted; [|apply sort_by_size_desc_sorted].
  intros a b c. apply not_smaller_trans.
Qed.

(** The selection keeps the order of the sorted list. *)
Lemma fit_loop_sorted items :
  StronglySorted not_smaller items ->
  forall rem, StronglySorted not_smaller (fst (fold_left fit_step items ([], rem))).
Proof.
  induction 1 as [|x items Hs IH Hx]; intros rem.
  - constructor.
  - destruct (Qle_bool (size_of x) rem) eqn:E.
    + rewrite (fit_loop_accept _ _ _ E). cbn [fst]. constructor; [apply IH|].
      destruct (fit_loop_selects_fitting items (rem - size_of x)) as [_ Hall].
      rewrite Forall_forall in *. intros item Hin.
      apply Hx. now apply Hall.
    + rewrite (fit_loop_reject _ _ _ E). apply IH.
Qed.

(** Sorting a list that is in descending order leaves it as it is. *)
Lemma sort_by_size_desc_of_sorted l :
  StronglySorted not_smaller l -> sort_by_size_desc l = l.
Proof.
  induction 1 as [|x l Hs IH Hx]; [reflexivity|].
  cbn [sort_by_size_desc fold_right]. fold (sort_by_size_desc l). rewrite IH.
  destruct l as [|y l]; [reflexivity|]. cbn [insert_by_size].
  inversion Hx as [|? ? Hxy _]; subst. unfold not_smaller in Hxy.
  destruct (N.ltb_spec (snd x) (snd y)); [lia|reflexivity].
Qed.




End Greedy.

Section Fit_plans.

Import Folder_Analyzer.

Lemma folder_sizes_of_infos (folder_infos : list folder_info) :
  map (fun info : folder_info => let '(folder, size, _) := info in (folder, size))
    folder_infos
  = map (fun info : folder_info => (fst (fst info), snd (fst info))) folder_infos.
Proof.
  apply map_ext. now intros [[folder size] file_count].
Qed.




End Fit_plans.



(** X7: the selection is in descending order of size, and of the folders of
    one size the selected ones are the first ones of the input, in their
    input order. *)
Theorem fit_selection_order :
  forall folder_infos capacity_tb safety_margin_percent,
    StronglySorted Folder_Analyzer.not_smaller
      (fst (Folder_Analyzer.efficient_fitting_greedy folder_infos capacity_tb
              safety_margin_percent))
    /\ forall size, exists later,
         filter (fun item => (snd item =? size)%N)
           (map (fun info : Folder_Analyzer.folder_info =>
                   (fst (fst info), snd (fst info))) folder_infos)
         = (filter (fun item => (snd item =? size)%N)
              (fst (Folder_Analyzer.efficient_fitting_greedy folder_infos
                      capacity_tb safety_margin_percent))
            ++ later)%list.
Proof.
  intros folder_infos cap margin.
  unfold Folder_Analyzer.efficient_fitting_greedy.
  rewrite folder_sizes_of_infos.
  set (folder_sizes := map _ folder_infos). split.
  - apply fit_loop_sorted, sort_by_size_desc_strongly_sorted.
  - intros size.
    destruct (fit_loop_equal_sizes size
                (Folder_Analyzer.sort_by_size_desc folder_sizes)
                (Folder_Analyzer.adjusted_hard_disk_size_bytes cap margin))
      as [later H].
    exists later. rewrite <- H. symmetry. apply sort_by_size_desc_stable.
Qed.



(** X9: fitting the selected folders again, with the same disk size and
    margin and whatever file counts, selects all of them in the same order
    and leaves the same remaining space. *)
Theorem fit_again_gives_same_plan :
  forall folder_infos capacity_tb safety_margin_percent file_count,
    Folder_Analyzer.efficient_fitting_greedy
      (map (fun item : string * N => (fst item, snd item, file_count))
         (fst (Folder_Analyzer.efficient_fitting_greedy folder_infos capacity_tb
                 safety_margin_percent)))
      capacity_tb safety_margin_percent
    = Folder_Analyzer.efficient_fitting_greedy folder_infos capacity_tb
        safety_margin_percent.
Proof.
  intros folder_infos cap margin file_count.
  unfold Folder_Analyzer.efficient_fitting_greedy at 1.
  rewrite map_map.
  rewrite (map_ext _ (fun item : string * N => item)) by (now intros [folder size]).
  rewrite map_id.
  unfold Folder_Analyzer.efficient_fitting_greedy.
  set (items := Folder_Analyzer.sort_by_size_desc (map _ folder_infos)).
  set (adjusted := Folder_Analyzer.adjusted_hard_disk_size_bytes cap margin).
  rewrite (sort_by_size_desc_of_sorted
             (fst (fold_left Folder_Analyzer.fit_step items ([], adjusted)))).
  - apply fit_loop_again.
  - apply fit_loop_sorted. apply sort_by_size_desc_strongly_sorted.
Qed.



(** ** Runs of the comparator that fail, and special pairs *)

Section Comparator_runs.

Import FS Folder_Checker.



(** The verdict of an iteration, from the two listings. *)
Lemma compare_pair_verdict fs directory_pairs size_threshold file_count_threshold
    status_text dir_a dir_b c status_text' listing_a listing_b :
  compare_pair fs directory_pairs size_threshold file_count_threshold
    status_text (dir_a, dir_b) = Py.Ok (c, status_text') ->
  fs dir_a = Some listing_a -> fs dir_b = Some listing_b ->
  identical c
  = ((Z.abs (Z.of_N (total_length listing_a) - Z.of_N (total_length listing_b))
      <=? size_threshold)%Z
     && (Z.abs (Z.of_N (number_of_files listing_a)
                - Z.of_N (number_of_files listing_b))
         <=? file_count_threshold)%Z).
Proof.
  intros Hc Ha Hb.
  destruct (compare_pair_inv _ _ _ _ _ _ _ _ _ Hc)
    as [la [lb [_ [Ha' [Hb' [_ [Hsd [Hfd [Hid _]]]]]]]]].
  assert (la = listing_a) by congruence. assert (lb = listing_b) by congruence.
  subst la lb. now rewrite Hid, Hsd, Hfd.
Qed.

End Comparator_runs.





(** X13: a directory compared with itself has both deltas 0, so the pair is
    found identical exactly when neither threshold is negative. *)
Theorem comparing_a_directory_with_itself :
  forall fs directory_pairs size_threshold file_count_threshold status_text
         results status_text' i dir,
    Folder_Checker.start_comparison fs directory_pairs size_threshold
      file_count_threshold status_text = Py.Ok (results, status_text') ->
    nth_error directory_pairs i = Some (dir, dir) ->
    exists message,
      nth_error results i
      = Some (message, ((0 <=? size_threshold)%Z && (0 <=? file_count_threshold)%Z)).
Proof.
  intros fs pairs st ft status results status' i dir H Hi.
  destruct (comparison_loop_inv _ _ _ _ _ _ _ _ _ H) as [new [-> Hall]].
  simpl.
  destruct (Forall2_nth_error_left _ _ _ _ _ Hall Hi)
    as [r [Hr [c [s1 [s2 [Hc ->]]]]]].
  destruct (compare_pair_inv _ _ _ _ _ _ _ _ _ Hc)
    as [la [lb [_ [Ha [Hb _]]]]].
  assert (lb = la) by congruence. subst lb.
  rewrite (compare_pair_verdict _ _ _ _ _ _ _ _ _ _ _ Hc Ha Hb) in Hr.
  rewrite !Z.sub_diag in Hr. exists (Folder_Checker.result c). exact Hr.
Qed.

Lemma comparing_a_directory_with_itself_witness :
  exists message,
    nth_error [(Folder_Checker.identical_message "/mnt/C" "/mnt/C" 1 900 2, true)] 0
    = Some (message, ((0 <=? 0)%Z && (0 <=? 0)%Z)).
Proof.
  apply (comparing_a_directory_with_itself Demo.fs [("/mnt/C", "/mnt/C")] 0 0 None
           [(Folder_Checker.identical_message "/mnt/C" "/mnt/C" 1 900 2, true)]
           None 0 "/mnt/C").
  - vm_compute. reflexivity.
  - reflexivity.
Defined.

(** X14: with a negative size threshold or a negative file count threshold
    no pair is found identical, equal directories included. *)
Theorem negative_threshold_finds_nothing_identical :
  forall fs directory_pairs size_threshold file_count_threshold status_text
         results status_text',
    Folder_Checker.start_comparison fs directory_pairs size_threshold
      file_count_threshold status_text = Py.Ok (results, status_text') ->
    (size_threshold < 0)%Z \/ (file_count_threshold < 0)%Z ->
    Forall (fun r => snd r = false) results.
Proof.
  intros fs pairs st ft status results status' H Hneg.
  destruct (comparison_loop_inv _ _ _ _ _ _ _ _ _ H) as [new [-> Hall]].
  simpl. clear H. induction Hall as [|dirs r l l' Hr _ IH]; constructor; [|exact IH].
  destruct Hr as [c [s1 [s2 [Hc ->]]]]. destruct dirs as [dir_a dir_b].
  destruct (compare_pair_inv _ _ _ _ _ _ _ _ _ Hc)
    as [la [lb [_ [_ [_ [_ [Hsd [Hfd [Hid _]]]]]]]]].
  cbn [snd]. rewrite Hid. apply andb_false_iff.
  destruct Hneg; [left|right]; apply Z.leb_gt; lia.
Qed.

Lemma negative_threshold_finds_nothing_identical_witness :
  Forall (fun r : string * bool => snd r = false)
    [(Folder_Checker.different_message "/mnt/C" "/mnt/C" 1 0 0, false)].
Proof.
  apply (negative_threshold_finds_nothing_identical Demo.fs [("/mnt/C", "/mnt/C")]
           (-1) 0 None
           [(Folder_Checker.different_message "/mnt/C" "/mnt/C" 1 0 0, false)] None).
  - vm_compute. reflexivity.
  - left. lia.
Defined.

(** X15: tolerances add up along a chain.  When A and B are found identical
    with thresholds (s1, f1) and B and C with (s2, f2), then A and C are
    found identical with (s1 + s2, f1 + f2). *)
Theorem identical_pairs_chain :
  forall fs dir_a dir_b dir_c s1 f1 s2 f2 status1 status2 status3
         message1 message2 status1' status2',
    Folder_Checker.start_comparison fs [(dir_a, dir_b)] s1 f1 status1
    = Py.Ok ([(message1, true)], status1') ->
    Folder_Checker.start_comparison fs [(dir_b, dir_c)] s2 f2 status2
    = Py.Ok ([(message2, true)], status2') ->
    exists message3 status3',
      Folder_Checker.start_comparison fs [(dir_a, dir_c)] (s1 + s2) (f1 + f2) status3
      = Py.Ok ([(message3, true)], status3').
Proof.
  intros fs dir_a dir_b dir_c s1 f1 s2 f2 status1 status2 status3
         message1 message2 status1' status2' H1 H2.
  destruct (comparison_loop_inv _ _ _ _ _ _ _ _ _ H1) as [new1 [E1 Hall1]].
  destruct (comparison_loop_inv _ _ _ _ _ _ _ _ _ H2) as [new2 [E2 Hall2]].
  simpl in E1, E2. subst new1 new2.
  inversion Hall1 as [|? ? ? ? [c1 [t1 [t1' [Hc1 Hr1]]]] _]; subst.
  inversion Hall2 as [|? ? ? ? [c2 [t2 [t2' [Hc2 Hr2]]]] _]; subst.
  injection Hr1 as _ Hid1. injection Hr2 as _ Hid2.
  destruct (compare_pair_inv _ _ _ _ _ _ _ _ _ Hc1)
    as [la [lb [_ [Ha [Hb _]]]]].
  destruct (compare_pair_inv _ _ _ _ _ _ _ _ _ Hc2)
    as [lb' [lc [_ [Hb' [Hc _]]]]].
  assert (lb' = lb) by congruence. subst lb'.
  rewrite (compare_pair_verdict _ _ _ _ _ _ _ _ _ _ _ Hc1 Ha Hb) in Hid1.
  rewrite (compare_pair_verdict _ _ _ _ _ _ _ _ _ _ _ Hc2 Hb Hc) in Hid2.
  symmetry in Hid1, Hid2.
  apply andb_true_iff in Hid1, Hid2. rewrite !Z.leb_le in Hid1, Hid2.
  destruct (compare_pair_returns fs [(dir_a, dir_c)] (s1 + s2) (f1 + f2) status3
              dir_a dir_c) as [c3 [status3' Hc3]];
    [congruence|congruence|now left|].
  exists (Folder_Checker.result c3), status3'.
  unfold Folder_Checker.start_comparison. cbn [Folder_Checker.comparison_loop].
  rewrite Hc3. cbn [Py.bind app].
  rewrite (compare_pair_verdict _ _ _ _ _ _ _ _ _ _ _ Hc3 Ha Hc).
  replace (_ && _) with true; [reflexivity|].
  symmetry. apply andb_true_iff. rewrite !Z.leb_le. lia.
Qed.

Lemma identical_pairs_chain_witness :
  exists message3 status3',
    Folder_Checker.start_comparison Demo.fs [("/mnt/A", "/mnt/C")]
      (0 + 600) (0 + 1) None
    = Py.Ok ([(message3, true)], status3').
Proof.
  apply (identical_pairs_chain Demo.fs "/mnt/A" "/mnt/B" "/mnt/C" 0 0 600 1
           None None None
           (Folder_Checker.identical_message "/mnt/A" "/mnt/B" 1 1500 3)
           (Folder_Checker.identical_message "/mnt/B" "/mnt/C" 1 1500 3)
           None None);
    vm_compute; reflexivity.
Defined.

(** ** The loops of the two page scripts *)

Section Page_loops.

Import FS.

Lemma fraction_bounds index total :
  (1 <= index <= total)%nat ->
  0 < Page.fraction index total /\ Page.fraction index total <= 1.
Proof.
  intros H. unfold Page.fraction.
  assert (Ht : 0 < inject_Z (Z.of_nat total)).
  { change 0 with (inject_Z 0). rewrite <- Zlt_Qlt. lia. }
  split.
  - apply Qlt_shift_div_l; [exact Ht|]. rewrite Qmult_0_l.
    change 0 with (inject_Z 0). rewrite <- Zlt_Qlt. lia.
  - apply Qle_shift_div_r; [exact Ht|]. rewrite Qmult_1_l.
    rewrite <- Zle_Qle. lia.
Qed.

Lemma fraction_full total : (1 <= total)%nat -> Page.fraction total total == 1.
Proof.
  intros H. unfold Page.fraction, Qdiv. apply Qmult_inv_r.
  intros H0. unfold Qeq in H0. simpl in H0. lia.
Qed.

Lemma Forall2_same_left {A B C D} (P : A -> B -> Prop) (Q : A -> C -> Prop)
    (f : B -> D) (g : C -> D) l r1 r2 :
  Forall2 P l r1 -> Forall2 Q l r2 ->
  (forall a b c, P a b -> Q a c -> f b = g c) ->
  map f r1 = map g r2.
Proof.
  intros H1. revert r2. induction H1 as [|a b l r1 Hab _ IH]; intros r2 H2 Hfg.
  - inversion H2. reflexivity.
  - inversion H2 as [|? c ? r2' Hac H2']; subst. simpl.
    rewrite (Hfg _ _ _ Hab Hac). f_equal. now apply IH.
Qed.

(** *** The analyzer page *)

Lemma scan_loop_inv fs num_folders todo : forall i state state',
  Analyzer_Page.scan_loop fs num_folders todo i state = Py.Ok state' ->
  exists new,
    Analyzer_Page.folder_infos state'
    = (Analyzer_Page.folder_infos state ++ new)%list
    /\ Forall2
         (fun folder info =>
            exists listing,
              fs folder = Some listing
              /\ info = (folder, total_length listing, number_of_files listing))
         todo new
    /\ Analyzer_Page.progress_bar state'
       = (Analyzer_Page.progress_bar state
          ++ map (fun j => Page.fraction (j + 1) num_folders)
               (seq i (List.length todo)))%list.
Proof.
  induction todo as [|folder todo IH]; intros i state state'.
  - simpl. intros [= <-]. exists []. rewrite !app_nil_r. repeat split. constructor.
  - cbn [Analyzer_Page.scan_loop]. unfold scandir.
    destruct (fs folder) as [listing|] eqn:Hfs; cbn [Py.bind]; [|discriminate].
    pose proof (analyzer_totals folder listing (Analyzer_Page.status_text state))
      as Htotals.
    destruct (Folder_Analyzer.get_folder_info folder listing _)
      as [[size file_count] status1].
    cbn [fst] in Htotals. injection Htotals as -> ->.
    intros H. destruct (IH _ _ _ H) as [new [Hinfos [Hall Hbar]]].
    cbn [Analyzer_Page.folder_infos Analyzer_Page.progress_bar] in Hinfos, Hbar.
    exists ((folder, total_length listing, number_of_files listing) :: new).
    split; [now rewrite Hinfos, <- app_assoc|]. split.
    + constructor; [|exact Hall]. eauto.
    + rewrite Hbar, <- app_assoc. reflexivity.
Qed.

Lemma scan_loop_returns fs num_folders todo : forall i state,
  Forall (fun folder => fs folder <> None) todo ->
  exists state', Analyzer_Page.scan_loop fs num_folders todo i state = Py.Ok state'.
Proof.
  induction todo as [|folder todo IH]; intros i state Hall.
  - simpl. eauto.
  - inversion Hall as [|? ? Hfolder Hrest]; subst.
    cbn [Analyzer_Page.scan_loop]. unfold scandir.
    destruct (fs folder) as [listing|]; [|congruence]. cbn [Py.bind].
    destruct (Folder_Analyzer.get_folder_info folder listing _)
      as [[size file_count] status1].
    now apply IH.
Qed.

Lemma analyzer_keeps_placeholder folder_path listing shown :
  exists shown',
    snd (Folder_Analyzer.get_folder_info folder_path listing (Some shown))
    = Some shown'.
Proof.
  unfold Folder_Analyzer.get_folder_info.
  destruct (analyzer_loop_texts listing
              (proj2 (Forall_forall _ _) (fun e _ => analyzer_entry_texts e))
              folder_path 0%N 0%N shown) as [texts [H _]].
  destruct (fold_left _ listing _) as [[t c] st']. eauto.
Qed.

Lemma scan_loop_keeps_placeholder fs num_folders todo : forall i state state',
  Analyzer_Page.scan_loop fs num_folders todo i state = Py.Ok state' ->
  (exists shown, Analyzer_Page.status_text state = Some shown) ->
  exists shown', Analyzer_Page.status_text state' = Some shown'.
Proof.
  induction todo as [|folder todo IH]; intros i state state'.
  - simpl. now intros [= <-].
  - cbn [Analyzer_Page.scan_loop]. unfold scandir.
    destruct (fs folder) as [listing|]; cbn [Py.bind]; [|discriminate].
    intros H [shown Hs]. rewrite Hs in H.
    destruct (analyzer_keeps_placeholder folder listing shown) as [shown1 H1].
    destruct (Folder_Analyzer.get_folder_info folder listing (Some shown))
      as [[size file_count] status1].
    cbn [snd] in H1. subst status1.
    apply (IH _ _ _ H). cbn [Analyzer_Page.status_text]. eauto.
Qed.

(** *** The checker page *)

Lemma first_result_inv fs dirs size_threshold file_count_threshold status_text
    r status_text' :
  Checker_Page.first_result fs dirs size_threshold file_count_threshold status_text
  = Checker_Page.Ok (r, status_text') ->
  exists c,
    Folder_Checker.compare_pair fs [dirs] size_threshold file_count_threshold
      status_text dirs = Py.Ok (c, status_text')
    /\ r = (Folder_Checker.result c, Folder_Checker.identical c).
Proof.
  unfold Checker_Page.first_result, Folder_Checker.start_comparison.
  cbn [Folder_Checker.comparison_loop].
  destruct (Folder_Checker.compare_pair fs [dirs] size_threshold
              file_count_threshold status_text dirs) as [[c status1]|e];
    cbn [Py.bind app]; [|discriminate].
  intros [= <- <-]. eauto.
Qed.

(** The indexing [...[0]] never fails: a failure of the page's call is a
    failure of the iteration. *)
Lemma first_result_raises fs dirs size_threshold file_count_threshold status_text e :
  Checker_Page.first_result fs dirs size_threshold file_count_threshold status_text
  = Checker_Page.Raise e ->
  exists e0,
    e = Checker_Page.Raised e0
    /\ Folder_Checker.compare_pair fs [dirs] size_threshold file_count_threshold
         status_text dirs = Py.Raise e0.
Proof.
  unfold Checker_Page.first_result, Folder_Checker.start_comparison.
  cbn [Folder_Checker.comparison_loop].
  destruct (Folder_Checker.compare_pair fs [dirs] size_threshold
              file_count_threshold status_text dirs) as [[c status1]|e0];
    cbn [Py.bind app]; [discriminate|].
  intros [= <-]. eauto.
Qed.

Lemma compare_loop_inv fs num_pairs size_threshold file_count_threshold todo :
  forall index state state',
    Checker_Page.compare_loop fs num_pairs size_threshold file_count_threshold
      todo index state = Checker_Page.Ok state' ->
    exists new,
      Checker_Page.results state' = (Checker_Page.results state ++ new)%list
      /\ Forall2
           (fun dirs r =>
              exists c status1 status2,
                Folder_Checker.compare_pair fs [dirs] size_threshold
                  file_count_threshold status1 dirs = Py.Ok (c, status2)
                /\ r = (Folder_Checker.result c, Folder_Checker.identical c))
           todo new
      /\ Checker_Page.progress_bar state'
         = (Checker_Page.progress_bar state
            ++ map (fun j => Page.fraction j num_pairs)
                 (seq index (List.length todo)))%list.
Proof.
  induction todo as [|dirs todo IH]; intros index state state'.
  - simpl. intros [= <-]. exists []. rewrite !app_nil_r. repeat split. constructor.
  - cbn [Checker_Page.compare_loop].
    destruct (Checker_Page.first_result fs dirs size_threshold file_count_threshold
                (Checker_Page.status_text state)) as [[r status1]|e] eqn:E;
      [|discriminate].
    destruct (first_result_inv _ _ _ _ _ _ _ E) as [c [Hc ->]].
    intros H. destruct (IH _ _ _ H) as [new [Hres [Hall Hbar]]].
    cbn [Checker_Page.results Checker_Page.progress_bar] in Hres, Hbar.
    exists ((Folder_Checker.result c, Folder_Checker.identical c) :: new).
    split; [now rewrite Hres, <- app_assoc|]. split.
    + constructor; [|exact Hall]. eauto.
    + rewrite Hbar, <- app_assoc. reflexivity.
Qed.

Lemma compare_loop_returns fs num_pairs size_threshold file_count_threshold todo :
  forall index state,
    Forall (fun dirs => fs (fst dirs) <> None /\ fs (snd dirs) <> None) todo ->
    exists state',
      Checker_Page.compare_loop fs num_pairs size_threshold file_count_threshold
        todo index state = Checker_Page.Ok state'.
Proof.
  induction todo as [|[dir_a dir_b] todo IH]; intros index state Hall.
  - simpl. eauto.
  - inversion Hall as [|? ? [Ha Hb] Hrest]; subst. cbn [fst snd] in Ha, Hb.
    cbn [Checker_Page.compare_loop].
    destruct (Checker_Page.first_result fs (dir_a, dir_b) size_threshold
                file_count_threshold (Checker_Page.status_text state))
      as [[r status1]|e] eqn:E.
    + now apply IH.
    + exfalso. destruct (first_result_raises _ _ _ _ _ _ E) as [e0 [_ He0]].
      destruct (compare_pair_returns fs [(dir_a, dir_b)] size_threshold
                  file_count_threshold (Checker_Page.status_text state)
                  dir_a dir_b Ha Hb (or_introl eq_refl)) as [c [s' Hc]].
      congruence.
Qed.


End Page_loops.

(** X16: the checker page calls [start_comparison] with one pair at a time,
    so every message it shows, whatever the position of the pair in the
    session's list, carries the pair number 1. *)
Theorem page_numbers_every_pair_1 :
  forall fs directory_pairs size_threshold file_count_threshold state,
    Checker_Page.start_comparison_clicked fs directory_pairs size_threshold
      file_count_threshold = Checker_Page.Ok (Page.Outcome state) ->
    Forall2
      (fun dirs r =>
         exists rest,
           fst r = "Directory pair " ++ fst dirs ++ " and " ++ snd dirs
                     ++ " (pair 1) are " ++ rest)
      directory_pairs (Checker_Page.results state).
Proof.
  intros fs pairs st ft state. unfold Checker_Page.start_comparison_clicked.
  destruct pairs as [|dirs0 pairs]; [discriminate|].
  destruct (Checker_Page.compare_loop _ _ _ _ _ _ _) as [state'|e] eqn:E;
    [|discriminate].
  intros [= <-].
  destruct (compare_loop_inv _ _ _ _ _ _ _ _ E) as [new [Hres [Hall _]]].
  cbn [Checker_Page.results app] in Hres. rewrite Hres.
  eapply Forall2_impl; [|exact Hall].
  intros [dir_a dir_b] r [c [s1 [s2 [Hc ->]]]].
  destruct (compare_pair_inv _ _ _ _ _ _ _ _ _ Hc)
    as [la [lb [k [_ [_ [Hk [_ [_ [_ Hres']]]]]]]]].
  apply index_first in Hk. destruct Hk as [Hk _].
  assert (k = 0%nat) as ->.
  { destruct k as [|k]; [reflexivity|]. simpl in Hk. now destruct k. }
  destruct (message_prefix dir_a dir_b (Z.of_nat 0 + 1) (Folder_Checker.identical c)
              (FS.total_length la) (FS.number_of_files la)
              (Folder_Checker.size_delta c) (Folder_Checker.file_count_delta c))
    as [rest Hrest].
  exists rest. cbn [fst snd]. rewrite Hres', Hrest. reflexivity.
Qed.

Lemma page_numbers_every_pair_1_witness :
  exists state,
    Checker_Page.start_comparison_clicked Demo.fs Demo.directory_pairs 2000 0
    = Checker_Page.Ok (Page.Outcome state)
    /\ Forall2
         (fun dirs r =>
            exists rest,
              fst r = "Directory pair " ++ fst dirs ++ " and " ++ snd dirs
                        ++ " (pair 1) are " ++ rest)
         Demo.directory_pairs (Checker_Page.results state).
Proof.
  eexists. split; [vm_compute; reflexivity|].
  apply (page_numbers_every_pair_1 Demo.fs Demo.directory_pairs 2000 0).
  vm_compute. reflexivity.
Defined.

(** X17: when one call of [start_comparison] on the whole list returns, the
    checker page, which makes one call per pair, returns as well and shows
    the same verdicts in the same order. *)
Theorem page_verdicts_are_those_of_one_call :
  forall fs directory_pairs size_threshold file_count_threshold status_text
         results status_text',
    directory_pairs <> [] ->
    Folder_Checker.start_comparison fs directory_pairs size_threshold
      file_count_threshold status_text = Py.Ok (results, status_text') ->
    exists state,
      Checker_Page.start_comparison_clicked fs directory_pairs size_threshold
        file_count_threshold = Checker_Page.Ok (Page.Outcome state)
      /\ map snd (Checker_Page.results state) = map snd results.
Proof.
  intros fs pairs st ft status results status' Hne H.
  destruct (comparison_loop_inv _ _ _ _ _ _ _ _ _ H) as [new [-> Hall]].
  cbn [app].
  assert (Hlist : Forall (fun dirs => fs (fst dirs) <> None /\ fs (snd dirs) <> None)
                    pairs).
  { apply Forall_forall. intros [dir_a dir_b] Hin.
    destruct (In_nth_error _ _ Hin) as [i Hi].
    destruct (Forall2_nth_error_left _ _ _ _ _ Hall Hi)
      as [r [_ [c [s1 [s2 [Hc _]]]]]].
    destruct (compare_pair_inv _ _ _ _ _ _ _ _ _ Hc)
      as [la [lb [_ [Ha [Hb _]]]]].
    cbn [fst snd]. split; congruence. }
  destruct (compare_loop_returns fs (List.length pairs) st ft pairs 1%nat
              (Checker_Page.Compare_state [] (Some []) []) Hlist) as [state E].
  exists state. unfold Checker_Page.start_comparison_clicked.
  destruct pairs as [|dirs0 pairs]; [congruence|].
  rewrite E. split; [reflexivity|].
  destruct (compare_loop_inv _ _ _ _ _ _ _ _ E) as [new' [Hres [Hall' _]]].
  cbn [Checker_Page.results app] in Hres. rewrite Hres.
  apply (Forall2_same_left _ _ snd snd _ _ _ Hall' Hall).
  intros [dir_a dir_b] r' r [c' [t1 [t2 [Hc' ->]]]] [c [s1 [s2 [Hc ->]]]].
  destruct (compare_pair_inv _ _ _ _ _ _ _ _ _ Hc)
    as [la [lb [_ [Ha [Hb _]]]]].
  cbn [snd].
  now rewrite (compare_pair_verdict _ _ _ _ _ _ _ _ _ _ _ Hc Ha Hb),
    (compare_pair_verdict _ _ _ _ _ _ _ _ _ _ _ Hc' Ha Hb).
Qed.

Lemma page_verdicts_are_those_of_one_call_witness :
  exists state,
    Checker_Page.start_comparison_clicked Demo.fs Demo.directory_pairs 2000 0
    = Checker_Page.Ok (Page.Outcome state)
    /\ map snd (Checker_Page.results state) = map snd (fst Demo.run).
Proof.
  apply (page_verdicts_are_those_of_one_call Demo.fs Demo.directory_pairs 2000 0
           None (fst Demo.run) (snd Demo.run)).
  - discriminate.
  - vm_compute. reflexivity.
Defined.



Section Progress_bars.

(** The values [first/total, ..., (first + count - 1)/total]. *)
Lemma progress_values total (f : nat -> nat) first count :
  (forall j, (first <= j < first + count)%nat -> (1 <= f j <= total)%nat) ->
  Forall (fun v => 0 < v /\ v <= 1)
    (map (fun j => Page.fraction (f j) total) (seq first count)).
Proof.
  intros Hf. apply Forall_forall. intros v Hv.
  apply in_map_iff in Hv. destruct Hv as [j [<- Hj]].
  apply in_seq in Hj. apply fraction_bounds. apply Hf. lia.
Qed.

Lemma progress_last total (f : nat -> nat) first count :
  f (first + count)%nat = total -> (1 <= total)%nat ->
  exists before last,
    map (fun j => Page.fraction (f j) total) (seq first (S count))
    = (before ++ [last])%list
    /\ last == 1.
Proof.
  intros Hf Ht. rewrite seq_S, map_app. cbn [map].
  eexists. eexists. split; [reflexivity|].
  rewrite Hf. now apply fraction_full.
Qed.

End Progress_bars.

(** X19: on both pages the progress bar is given one value per folder, or
    per pair, each above 0 and at most 1, and the last value is 1: the bar
    is full when the loop ends and never asked to show more than all. *)
Theorem progress_bar_ends_full :
  (forall fs directory_pairs size_threshold file_count_threshold state,
      Checker_Page.start_comparison_clicked fs directory_pairs size_threshold
        file_count_threshold = Checker_Page.Ok (Page.Outcome state) ->
      List.length (Checker_Page.progress_bar state) = List.length directory_pairs
      /\ Forall (fun v => 0 < v /\ v <= 1) (Checker_Page.progress_bar state)
      /\ exists before last,
           Checker_Page.progress_bar state = (before ++ [last])%list /\ last == 1)
  /\ (forall fs folders state,
         Analyzer_Page.scan_storage fs folders = Py.Ok (Page.Outcome state) ->
         List.length (Analyzer_Page.progress_bar state) = List.length folders
         /\ Forall (fun v => 0 < v /\ v <= 1) (Analyzer_Page.progress_bar state)
         /\ exists before last,
              Analyzer_Page.progress_bar state = (before ++ [last])%list
              /\ last == 1).
Proof.
  split.
  - intros fs pairs st ft state. unfold Checker_Page.start_comparison_clicked.
    destruct pairs as [|dirs0 pairs]; [discriminate|].
    destruct (Checker_Page.compare_loop _ _ _ _ _ _ _) as [state'|e] eqn:E;
      [|discriminate].
    intros [= <-].
    destruct (compare_loop_inv _ _ _ _ _ _ _ _ E) as [new [_ [_ Hbar]]].
    cbn [Checker_Page.progress_bar app] in Hbar. rewrite Hbar.
    set (n := List.length (dirs0 :: pairs)).
    split; [now rewrite length_map, length_seq|]. split.
    + apply (progress_values n (fun j => j)). intros j Hj. lia.
    + apply (progress_last n (fun j => j) 1 (List.length pairs)).
      * reflexivity.
      * subst n. simpl. lia.
  - intros fs folders state. unfold Analyzer_Page.scan_storage.
    destruct folders as [|folder0 folders]; [discriminate|].
    destruct (Analyzer_Page.scan_loop _ _ _ _ _) as [state'|e] eqn:E;
      cbn [Py.bind]; [|discriminate].
    intros [= <-]. cbn [Analyzer_Page.progress_bar].
    destruct (scan_loop_inv _ _ _ _ _ _ E) as [new [_ [_ Hbar]]].
    cbn [Analyzer_Page.progress_bar app] in Hbar. rewrite Hbar.
    set (n := List.length (folder0 :: folders)).
    split; [now rewrite length_map, length_seq|]. split.
    + apply (progress_values n (fun j => (j + 1)%nat)). intros j Hj. lia.
    + apply (progress_last n (fun j => (j + 1)%nat) 0 (List.length folders)).
      * subst n. simpl. lia.
      * subst n. simpl. lia.
Qed.

Lemma progress_bar_ends_full_witness :
  exists state,
    Checker_Page.start_comparison_clicked Demo.fs Demo.directory_pairs 2000 0
    = Checker_Page.Ok (Page.Outcome state)
    /\ List.length (Checker_Page.progress_bar state)
       = List.length Demo.directory_pairs
    /\ Forall (fun v => 0 < v /\ v <= 1) (Checker_Page.progress_bar state)
    /\ exists before last,
         Checker_Page.progress_bar state = (before ++ [last])%list /\ last == 1.
Proof.
  eexists. split; [vm_compute; reflexivity|].
  apply (proj1 progress_bar_ends_full Demo.fs Demo.directory_pairs 2000%Z 0%Z).
  vm_compute. reflexivity.
Defined.

(** X20: when the scan of the analyzer page returns, [folder_infos] holds,
    for every folder of the session and in the same order, the folder with
    the total length and the number of the regular files below it, and the
    placeholder has been emptied. *)
Theorem scan_storage_measures_every_folder :
  forall fs folders state,
    Analyzer_Page.scan_storage fs folders = Py.Ok (Page.Outcome state) ->
    Forall2
      (fun folder info =>
         exists listing,
           fs folder = Some listing
           /\ info = (folder, FS.total_length listing, FS.number_of_files listing))
      folders (Analyzer_Page.folder_infos state)
    /\ Analyzer_Page.status_text state = Some [].
Proof.
  intros fs folders state. unfold Analyzer_Page.scan_storage.
  destruct folders as [|folder0 folders]; [discriminate|].
  destruct (Analyzer_Page.scan_loop _ _ _ _ _) as [state'|e] eqn:E;
    cbn [Py.bind]; [|discriminate].
  intros [= <-].
  cbn [Analyzer_Page.folder_infos Analyzer_Page.status_text].
  destruct (scan_loop_inv _ _ _ _ _ _ E) as [new [Hinfos [Hall _]]].
  cbn [Analyzer_Page.folder_infos app] in Hinfos. rewrite Hinfos.
  split; [exact Hall|].
  destruct (scan_loop_keeps_placeholder _ _ _ _ _ _ E) as [shown' Hs].
  - cbn [Analyzer_Page.status_text]. eauto.
  - rewrite Hs. reflexivity.
Qed.

Lemma scan_storage_measures_every_folder_witness :
  exists state,
    Analyzer_Page.scan_storage Demo.fs ["/mnt/C"; "/mnt/A"] = Py.Ok (Page.Outcome state)
    /\ Forall2
         (fun folder info =>
            exists listing,
              Demo.fs folder = Some listing
              /\ info = (folder, FS.total_length listing, FS.number_of_files listing))
         ["/mnt/C"; "/mnt/A"] (Analyzer_Page.folder_infos state)
    /\ Analyzer_Page.status_text state = Some [].
Proof.
  eexists. split; [vm_compute; reflexivity|].
  apply (scan_storage_measures_every_folder Demo.fs ["/mnt/C"; "/mnt/A"]).
  vm_compute. reflexivity.
Defined.

Section Scan_then_fit.

Import Folder_Analyzer.




End Scan_then_fit.


